(** * AIVID: the request-forwarding core of the interior-design studio

    A shallow embedding of the TypeScript sources

    - [python-actions.ts]  : [handleBackendRequest] and its eleven wrappers,
    - [studio.tsx]         : [handleClear], [handleGenerationSubmit],
                             [handleEditSubmit],
    - [design-chat.tsx]    : [DesignChat.handleSubmit],

    followed by the properties of the specification that concern them.

    Conventions of the embedding.

    - JavaScript control flow is modelled with completion records
      (normal / return / throw), threaded through an explicit store that
      holds the React state of the Studio, the notices shown so far and
      the log of HTTP requests handed to [fetch].
    - Everything the platform decides (the answer of [fetch], the outcome
      of reading a body or a file, [JSON.stringify], the environment
      variable) is an argument of the model, so every statement holds for
      every behaviour of the platform.
    - TypeScript interfaces are taken at their word: a value of type
      [GenerateDesignOutput] has a [data] field that is a list of strings.
    - React state setters used by the handlers are absolute
      ([setX(value)], never [setX(prev => ...)]), so running a handler
      without interleaved events is a sequence of writes to the store.
      The values a handler reads ([prompt], [generatedImages], ...) are the
      ones captured by the render that created it; they are passed as the
      argument [r]. *)

From Stdlib Require Import String Ascii List Bool Arith NArith Lia.
From Stdlib Require Import DecimalString.
Import ListNotations.
Open Scope list_scope.
Open Scope string_scope.

(* ===================================================================== *)
(** * JavaScript values, exceptions, completions                          *)
(* ===================================================================== *)

Module Js.

(** The JavaScript values a payload can hold. *)
#[warnings="-register-all"]
Inductive JsValue : Type :=
| JsUndefined
| JsNull
| JsBool (b : bool)
| JsNumber (n : nat)
| JsString (s : string)
| JsArray (items : list JsValue)
| JsObj (props : list (string * JsValue)).

(** A plain object, as the list of its own enumerable string-keyed
    properties in the order [Object.entries] yields them. *)
Definition JsObject : Type := list (string * JsValue).

Definition Object_entries (o : JsObject) : list (string * JsValue) := o.

(** [value !== undefined && value !== null] *)
Definition is_nullish (v : JsValue) : bool :=
  match v with
  | JsUndefined | JsNull => true
  | _ => false
  end.

(** What a [throw] (or a rejected promise) carries: an [Error] object with
    its [message], or any other value. *)
Inductive JsThrown : Type :=
| JsError (message : string)
| JsNonError (v : JsValue).

(** [error instanceof Error ? error.message : fallback] *)
Definition message_or (fallback : string) (error : JsThrown) : string :=
  match error with
  | JsError message => message
  | JsNonError _ => fallback
  end.

(** [s || fallback] on strings: the empty string is falsy. *)
Definition str_or (s fallback : string) : string :=
  if String.eqb s "" then fallback else s.

(** [!s] on strings. *)
Definition str_falsy (s : string) : bool := String.eqb s "".

(** The settled state of a promise, or the result of a call that may
    throw. *)
Inductive Outcome (A : Type) : Type :=
| Resolved (a : A)
| Rejected (e : JsThrown).
Arguments Resolved {A} a.
Arguments Rejected {A} e.

(** Completion of a statement list inside a function whose return type is
    [R]: fall through with a value, [return r], or [throw e]. *)
Inductive Completion (R A : Type) : Type :=
| Normal (a : A)
| Return (r : R)
| Throw (e : JsThrown).
Arguments Normal {R A} a.
Arguments Return {R A} r.
Arguments Throw {R A} e.

(** [`${n}`] for a non-negative integer. *)
Definition number_to_string (n : nat) : string :=
  NilEmpty.string_of_uint (Nat.to_uint n).


End Js.
Import Js.

(* ===================================================================== *)
(** * The store and the monad of handlers                                 *)
(* ===================================================================== *)

(** ** HTTP requests and responses *)

(** The body of a request: a [FormData] (its fields in [append] order, each
    with the value handed to [append]) or a string. *)
Inductive Body : Type :=
| FormDataBody (fields : list (string * JsValue))
| TextBody (text : string).

Record Request : Type := mkRequest {
  url : string;
  method : string;
  headers : list (string * string);
  body : Body
}.

(** A [Response] whose JSON body, when it parses, has type [U]. *)
Record Response (U : Type) : Type := mkResponse {
  status : nat;
  text : Outcome string;       (* await response.text() *)
  json : Outcome U             (* await response.json() *)
}.
Arguments mkResponse {U}.
Arguments status {U}.
Arguments text {U}.
Arguments json {U}.

(** [response.ok]: the status is in the range 200-299. *)
Definition ok {U} (response : Response U) : bool :=
  Nat.leb 200 (status response) && Nat.leb (status response) 299.

(** The remote backend, as [fetch] sees it. *)
Definition Fetch (U : Type) : Type := Request -> Outcome (Response U).

(** ** Files *)

Record File : Type := mkFile { file_name : string }.

(** ** What the platform decides *)

Record Platform : Type := mkPlatform {
  (** [process.env.BACKEND_URL] *)
  env_BACKEND_URL : option string;
  (** [JSON.stringify] of a payload object *)
  JSON_stringify : JsObject -> Outcome string;
  (** [FileReader.readAsDataURL]: [onload] with the result, or [onerror] *)
  readAsDataURL : File -> Outcome string;
  (** A ['use server'] function called from a ['use client'] component is
      a remote call made by the framework; [Some e] when that call itself
      rejects with [e] instead of running the function. *)
  serverActionTransport : option JsThrown
}.

(** ** Notices *)

Record Toast : Type := mkToast {
  variant : string;
  title : string;
  description : string
}.

(** ** The Studio's React state *)

Record StudioState : Type := mkStudio {
  prompt : string;
  style : string;
  activeTab : string;
  sourceImageFile : option File;
  floorPlanFile : option File;
  generatedImages : option (list string);
  selectedImageIndex : nat
}.

(** [useState] initial values of [Studio]. *)
Definition initialStudio : StudioState :=
  {| prompt := ""; style := "Modern"; activeTab := "text";
     sourceImageFile := None; floorPlanFile := None;
     generatedImages := None; selectedImageIndex := 0 |}.

Record Store : Type := mkStore {
  studio : StudioState;
  toasts : list Toast;
  network : list Request
}.

(** ** The monad *)

Definition M (R A : Type) : Type := Store -> Completion R A * Store.

Definition ret {R A} (a : A) : M R A := fun st => (Normal a, st).

Definition bind {R A B} (m : M R A) (k : A -> M R B) : M R B :=
  fun st =>
    match m st with
    | (Normal a, st') => k a st'
    | (Return r, st') => (Return r, st')
    | (Throw e, st') => (Throw e, st')
    end.

Declare Scope js_scope.
Delimit Scope js_scope with js.
Notation "x <- m ;; k" := (bind m (fun x => k))
  (at level 61, m at next level, right associativity) : js_scope.
Notation "m ;; k" := (bind m (fun _ => k))
  (at level 61, right associativity) : js_scope.
Open Scope js_scope.

(** [return r;] *)
Definition return_ {R A} (r : R) : M R A := fun st => (Return r, st).

(** [throw e;] *)
Definition throw {R A} (e : JsThrown) : M R A := fun st => (Throw e, st).

(** [try { block } catch (error) { handler }] *)
Definition try_catch {R A} (block : M R A) (handler : JsThrown -> M R A) : M R A :=
  fun st =>
    match block st with
    | (Throw e, st') => handler e st'
    | other => other
    end.

(** Calling (and awaiting) a function whose body is [body]: a [return]
    ends the call, not the caller; an uncaught [throw] goes on to the
    caller. *)
Definition call {R A} (body : M A A) : M R A :=
  fun st =>
    match body st with
    | (Normal a, st') => (Normal a, st')
    | (Return a, st') => (Normal a, st')
    | (Throw e, st') => (Throw e, st')
    end.

(** [await p] for a promise that settles as [o]; also a call that returns
    or throws as [o]. *)
Definition await {R A} (o : Outcome A) : M R A :=
  match o with
  | Resolved a => ret a
  | Rejected e => throw e
  end.

(** [await fetch(url, init)]: the request is handed to the transport. *)
Definition do_fetch {R U} (fetch : Fetch U) (request : Request) : M R (Response U) :=
  fun st =>
    let st' := {| studio := studio st; toasts := toasts st;
                  network := (network st ++ [request])%list |} in
    await (fetch request) st'.

(** [toast({...})] *)
Definition toast {R} (t : Toast) : M R unit :=
  fun st => (Normal tt, {| studio := studio st; toasts := (toasts st ++ [t])%list;
                           network := network st |}).

(** [await action(input)] from a client component. *)
Definition server_action {R A} (P : Platform) (action : M R A) : M R A :=
  match serverActionTransport P with
  | Some e => throw e
  | None => action
  end.

(* ===================================================================== *)
(** * python-actions.ts                                                   *)
(* ===================================================================== *)

Module PythonActions.

(** [type ActionResult<U> = { success: true; data: U }
                          | { success: false; error: string }] *)
Inductive ActionResult (U : Type) : Type :=
| Success (data : U)
| Failure (error : string).
Arguments Success {U} data.
Arguments Failure {U} error.

Definition success {U} (result : ActionResult U) : bool :=
  match result with
  | Success _ => true
  | Failure _ => false
  end.

(** [const BACKEND_URL = process.env.BACKEND_URL || 'http://localhost:8001'] *)
Definition BACKEND_URL (P : Platform) : string :=
  match env_BACKEND_URL P with
  | Some u => str_or u "http://localhost:8001"
  | None => "http://localhost:8001"
  end.

(** [formData.append(key, value)] *)
Definition append (formData : list (string * JsValue)) (key : string) (value : JsValue)
  : list (string * JsValue) :=
  (formData ++ [(key, value)])%list.

(** The [forEach] loop that fills the [FormData]. *)
Definition fill_form_data (input : JsObject) : list (string * JsValue) :=
  fold_left
    (fun formData '(key, value) =>
       if negb (is_nullish value) then append formData key value else formData)
    (Object_entries input) [].

Definition form_request (P : Platform) (endpoint : string) (input : JsObject) : Request :=
  {| url := BACKEND_URL P ++ endpoint;
     method := "POST";
     headers := [];
     body := FormDataBody (fill_form_data input) |}.

Definition json_request (P : Platform) (endpoint : string) (text : string) : Request :=
  {| url := BACKEND_URL P ++ endpoint;
     method := "POST";
     headers := [("Content-Type", "application/json")];
     body := TextBody text |}.

Definition failed_status_message (status : nat) (errorText : string) : string :=
  "Backend request failed with status " ++ number_to_string status ++ ": " ++ errorText.

Section HandleBackendRequest.
Context {U : Type}.
Variable P : Platform.
Variable fetch : Fetch U.

(** The [try] block of [handleBackendRequest]. *)
Definition handleBackendRequest_try (endpoint : string) (input : JsObject)
  : M (ActionResult U) (ActionResult U) :=
  response <-
    (if String.eqb endpoint "/generate-design" then
       do_fetch fetch (form_request P endpoint input)
     else
       text <- await (JSON_stringify P input) ;;
       do_fetch fetch (json_request P endpoint text)) ;;
  (if negb (ok response) then
     errorText <- await (text response) ;;
     throw (JsError (failed_status_message (status response) errorText))
   else ret tt) ;;
  result <- await (json response) ;;
  return_ (Success result).

(** The [catch] block ([console.error] writes to the server log only). *)
Definition handleBackendRequest_catch (error : JsThrown)
  : M (ActionResult U) (ActionResult U) :=
  let errorMessage := message_or "An unknown error occurred." error in
  return_ (Failure errorMessage).

Definition handleBackendRequest {R} (endpoint : string) (input : JsObject)
  : M R (ActionResult U) :=
  call (try_catch (handleBackendRequest_try endpoint input)
                  handleBackendRequest_catch).

End HandleBackendRequest.

(** ** Output interfaces *)

Record GenerateDesignOutput : Type := mkGenerateDesignOutput {
  gd_data : list string;
  gd_prompt : option string;
  gd_final_prompt : option string;
  gd_image_ids : option (list string)
}.
Record ChatOutput : Type := mkChatOutput { chat_data : string }.
Record SuggestEditsOutput : Type := mkSuggestEditsOutput { se_data : string }.
Record GeneratePromptOutput : Type := mkGeneratePromptOutput { gp_data : string }.
Record FlowGenerateImagePromptOutput : Type :=
  mkFlowGenerateImagePromptOutput { generatedPrompt : string }.
Record FlowGenerateInteriorDesignOutput : Type :=
  mkFlowGenerateInteriorDesignOutput { imageUrls : list string }.
Record FlowEditInteriorDesignOutput : Type :=
  mkFlowEditInteriorDesignOutput { editedImages : list string }.
Record FlowGetDesignSuggestionsOutput : Type :=
  mkFlowGetDesignSuggestionsOutput { gds_suggestion : string }.
Record FlowSummarizeDesignStylesOutput : Type :=
  mkFlowSummarizeDesignStylesOutput { summaries : list string }.
Record FlowSuggestImageEditsOutput : Type :=
  mkFlowSuggestImageEditsOutput { sie_suggestion : string }.
Record FlowGenerateImageFromCadFloorPlanOutput : Type :=
  mkFlowGenerateImageFromCadFloorPlanOutput { generatedImageUrls : list string }.

(** ** The exported actions.  The input of each is the object the caller
    passes (its interface lists the keys it may have). *)

Section Actions.
Variable P : Platform.
Context {R : Type}.

Definition generateDesignAction (fetch : Fetch GenerateDesignOutput) (input : JsObject)
  : M R (ActionResult GenerateDesignOutput) :=
  handleBackendRequest P fetch "/generate-design" input.

Definition chatAction (fetch : Fetch ChatOutput) (input : JsObject)
  : M R (ActionResult ChatOutput) :=
  handleBackendRequest P fetch "/chat" input.

Definition suggestEditsAction (fetch : Fetch SuggestEditsOutput) (input : JsObject)
  : M R (ActionResult SuggestEditsOutput) :=
  handleBackendRequest P fetch "/suggest-edits" input.

Definition generatePromptAction (fetch : Fetch GeneratePromptOutput) (input : JsObject)
  : M R (ActionResult GeneratePromptOutput) :=
  handleBackendRequest P fetch "/generate-new-prompt" input.

Definition flowGenerateImagePrompt (fetch : Fetch FlowGenerateImagePromptOutput)
  (input : JsObject) : M R (ActionResult FlowGenerateImagePromptOutput) :=
  handleBackendRequest P fetch "/flow/generate-image-prompt" input.

Definition flowGenerateInteriorDesign (fetch : Fetch FlowGenerateInteriorDesignOutput)
  (input : JsObject) : M R (ActionResult FlowGenerateInteriorDesignOutput) :=
  handleBackendRequest P fetch "/flow/generate-interior-design-from-prompt" input.

Definition flowEditInteriorDesign (fetch : Fetch FlowEditInteriorDesignOutput)
  (input : JsObject) : M R (ActionResult FlowEditInteriorDesignOutput) :=
  handleBackendRequest P fetch "/flow/edit-interior-design-with-text" input.

Definition flowGetDesignSuggestions (fetch : Fetch FlowGetDesignSuggestionsOutput)
  (input : JsObject) : M R (ActionResult FlowGetDesignSuggestionsOutput) :=
  handleBackendRequest P fetch "/flow/get-design-suggestions-from-chat" input.

Definition flowSummarizeDesignStyles (fetch : Fetch FlowSummarizeDesignStylesOutput)
  (input : JsObject) : M R (ActionResult FlowSummarizeDesignStylesOutput) :=
  handleBackendRequest P fetch "/flow/summarize-design-styles" input.

Definition flowSuggestImageEdits (fetch : Fetch FlowSuggestImageEditsOutput)
  (input : JsObject) : M R (ActionResult FlowSuggestImageEditsOutput) :=
  handleBackendRequest P fetch "/flow/suggest-image-edits" input.

Definition flowGenerateImageFromCadFloorPlan
  (fetch : Fetch FlowGenerateImageFromCadFloorPlanOutput)
  (input : JsObject) : M R (ActionResult FlowGenerateImageFromCadFloorPlanOutput) :=
  handleBackendRequest P fetch "/flow/generate-image-from-cad-floor-plan" input.

End Actions.

End PythonActions.
Import PythonActions.

(* ===================================================================== *)
(** * studio.tsx                                                          *)
(* ===================================================================== *)

Module Studio.

(** [import { chatAction as editDesignAction } from '@/app/python-actions'] *)
Definition editDesignAction (P : Platform) {R} := @chatAction P R.

(** ** State setters *)

Definition setPrompt {R} (v : string) : M R unit :=
  fun st =>
    let s := studio st in
    (Normal tt,
     {| studio := {| prompt := v; style := style s; activeTab := activeTab s;
                     sourceImageFile := sourceImageFile s;
                     floorPlanFile := floorPlanFile s;
                     generatedImages := generatedImages s;
                     selectedImageIndex := selectedImageIndex s |};
        toasts := toasts st; network := network st |}).

Definition setGeneratedImages {R} (v : option (list string)) : M R unit :=
  fun st =>
    let s := studio st in
    (Normal tt,
     {| studio := {| prompt := prompt s; style := style s; activeTab := activeTab s;
                     sourceImageFile := sourceImageFile s;
                     floorPlanFile := floorPlanFile s;
                     generatedImages := v;
                     selectedImageIndex := selectedImageIndex s |};
        toasts := toasts st; network := network st |}).

Definition setSelectedImageIndex {R} (v : nat) : M R unit :=
  fun st =>
    let s := studio st in
    (Normal tt,
     {| studio := {| prompt := prompt s; style := style s; activeTab := activeTab s;
                     sourceImageFile := sourceImageFile s;
                     floorPlanFile := floorPlanFile s;
                     generatedImages := generatedImages s;
                     selectedImageIndex := v |};
        toasts := toasts st; network := network st |}).

(** [startGenerationTransition(callback)] / [startEditTransition(callback)]:
    the callback runs; the pending flag it drives is not part of the
    session state. *)
Definition startTransition {R} (callback : M unit unit) : M R unit := call callback.

Definition destructive (title description : string) : Toast :=
  {| variant := "destructive"; title := title; description := description |}.

(** [!file] for [File | null] *)
Definition no_file (f : option File) : bool :=
  match f with
  | None => true
  | Some _ => false
  end.

(** [!generatedImages || generatedImages.length === 0] *)
Definition no_images (images : option (list string)) : bool :=
  match images with
  | None => true
  | Some l => Nat.eqb (length l) 0
  end.

(** [generatedImages[selectedImageIndex]] ([undefined] past the end) *)
Definition image_at (images : option (list string)) (index : nat) : option string :=
  match images with
  | None => None
  | Some l => nth_error l index
  end.

Section Handlers.
Variable P : Platform.
Variable backendDesign : Fetch GenerateDesignOutput.
Variable backendChat : Fetch ChatOutput.

(** The values captured by the render that created the handlers. *)
Variable r : StudioState.

(** [fileToDataUri(file)]: the promise resolves from [reader.onload] and
    rejects from [reader.onerror]; [readAsDataURL(null)] throws a
    [TypeError] inside the executor, which rejects the promise. *)
Definition fileToDataUri {R} (file : option File) : M R string :=
  match file with
  | Some f => await (readAsDataURL P f)
  | None =>
    throw (JsError "Failed to execute 'readAsDataURL' on 'FileReader': parameter 1 is not of type 'Blob'.")
  end.

Definition resetInputs {R} : M R unit := setPrompt "".

Definition handleClear {R} : M R unit :=
  call (setGeneratedImages None ;;
        setSelectedImageIndex 0).

(** The mode dispatch of [handleGenerationSubmit]: the
    [if (mode === 'text') ... else if ... else] chain that assigns
    [result]. *)
Definition generation_dispatch (mode : string)
  : M unit (ActionResult GenerateDesignOutput) :=
  if String.eqb mode "text" then
    if str_falsy (prompt r) || str_falsy (style r) then
      toast (destructive "Missing fields"
               "Please provide a prompt and select a style.") ;;
      return_ tt
    else
      result <- server_action P
        (generateDesignAction P backendDesign
           [("prompt", JsString (prompt r)); ("style", JsString (style r));
            ("mode", JsString "text")]) ;;
      match result with
      | Success data => setGeneratedImages (Some (gd_data data))
      | Failure _ => ret tt
      end ;;
      ret result
  else if String.eqb mode "image" then
    if no_file (sourceImageFile r) || str_falsy (prompt r) then
      toast (destructive "Missing fields"
               "Please upload a base image and provide an edit prompt.") ;;
      return_ tt
    else
      baseImage <- fileToDataUri (sourceImageFile r) ;;
      result <- server_action P
        (generateDesignAction P backendDesign
           [("prompt", JsString (prompt r)); ("style", JsString (style r));
            ("mode", JsString "image"); ("baseImage", JsString baseImage)]) ;;
      match result with
      | Success data => setGeneratedImages (Some (gd_data data))
      | Failure _ => ret tt
      end ;;
      ret result
  else if String.eqb mode "floorplan" then
    if no_file (floorPlanFile r) || str_falsy (style r) then
      toast (destructive "Missing fields"
               "Please upload a floor plan and select a style.") ;;
      return_ tt
    else
      floorPlan <- fileToDataUri (floorPlanFile r) ;;
      result <- server_action P
        (generateDesignAction P backendDesign
           [("prompt", JsString (prompt r)); ("style", JsString (style r));
            ("mode", JsString "floorplan"); ("floorPlan", JsString floorPlan)]) ;;
      match result with
      | Success data => setGeneratedImages (Some (gd_data data))
      | Failure _ => ret tt
      end ;;
      ret result
  else
    return_ tt.

(** The [try] block of [handleGenerationSubmit]. *)
Definition handleGenerationSubmit_try (mode : string) : M unit unit :=
  result <- generation_dispatch mode ;;
  match result with
  | Success _ =>
    setSelectedImageIndex 0 ;;
    resetInputs
  | Failure error =>
    throw (JsError (str_or error "An unexpected error occurred."))
  end.

Definition handleGenerationSubmit_catch (error : JsThrown) : M unit unit :=
  toast (destructive "Generation Failed"
           (message_or "Please try again later." error)).

Definition handleGenerationSubmit {R} (mode : string) : M R unit :=
  call (startTransition
          (setGeneratedImages None ;;
           try_catch (handleGenerationSubmit_try mode)
                     handleGenerationSubmit_catch)).

Definition edit_query (editPrompt : string) : string :=
  "Edit this image with the following prompt: " ++ editPrompt.

(** The [try] block of [handleEditSubmit]. *)
Definition handleEditSubmit_try (editPrompt : string) : M unit unit :=
  let baseImage := image_at (generatedImages r) (selectedImageIndex r) in
  result <- server_action P
    (editDesignAction P backendChat
       [("query", JsString (edit_query editPrompt))]) ;;
  match result with
  | Success data =>
    setGeneratedImages (Some [chat_data data]) ;;
    setSelectedImageIndex 0
  | Failure error =>
    throw (JsError (str_or error "An unexpected error occurred."))
  end.

Definition handleEditSubmit_catch (error : JsThrown) : M unit unit :=
  toast (destructive "Edit Failed"
           (message_or "Please try again later." error)).

Definition handleEditSubmit {R} (editPrompt : string) : M R unit :=
  call (if no_images (generatedImages r) then
          toast (destructive "No image to edit"
                   "Please generate an image first.") ;;
          return_ tt
        else
          startTransition
            (try_catch (handleEditSubmit_try editPrompt)
                       handleEditSubmit_catch)).

End Handlers.

End Studio.

(* ===================================================================== *)
(** * design-chat.tsx                                                     *)
(* ===================================================================== *)

Module DesignChat.

Inductive Role : Type := user | assistant.

Record Message : Type := mkMessage {
  role : Role;
  content : string
}.

(** What the callback given to [startTransition] captured when it was
    created. *)
Record Closure : Type := mkClosure {
  c_messages : list Message;      (* [messages] of the submitting render *)
  c_newMessages : list Message;   (* [newMessages] *)
  c_query : string                (* [query] *)
}.

Record ChatState : Type := mkChat {
  messages : list Message;
  input : string;
  transition : option Closure;    (* the pending transition, if any *)
  notices : list Toast
}.

Definition isPending (s : ChatState) : bool :=
  match transition s with
  | Some _ => true
  | None => false
  end.

(** [useState] initial values of [DesignChat]. *)
Definition initialChat : ChatState :=
  {| messages := []; input := ""; transition := None; notices := [] |}.

(** The steps of the component. *)
Inductive Event : Type :=
| Change (value : string)                           (* typing in the input *)
| Submit                                            (* the form is submitted *)
| Settled (o : Outcome (ActionResult ChatOutput)).  (* [await chatAction] ends *)

Section Component.
(** [String.prototype.trim] *)
Variable trim : string -> string.

(** [onChange={(e) => setInput(e.target.value)}] *)
Definition handleChange (value : string) (s : ChatState) : ChatState :=
  {| messages := messages s; input := value;
     transition := transition s; notices := notices s |}.

(** [handleSubmit] up to the [await]. *)
Definition handleSubmit (s : ChatState) : ChatState :=
  if str_falsy (trim (input s)) || isPending s then s
  else
    let newMessages := (messages s ++ [{| role := user; content := input s |}])%list in
    let query := input s in
    {| messages := newMessages;
       input := "";
       transition := Some {| c_messages := messages s;
                             c_newMessages := newMessages;
                             c_query := query |};
       notices := notices s |}.

(** The rest of the transition callback, once [chatAction] has
    settled. *)
Definition resume (o : Outcome (ActionResult ChatOutput)) (s : ChatState) : ChatState :=
  match transition s with
  | None => s
  | Some c =>
    match o with
    | Resolved (Success data) =>
      {| messages := (c_newMessages c ++
                      [{| role := assistant; content := chat_data data |}])%list;
         input := input s; transition := None; notices := notices s |}
    | Resolved (Failure error) =>
      {| messages := c_messages c;   (* Revert to previous messages on error *)
         input := input s; transition := None;
         notices := (notices s ++
                     [{| variant := "destructive"; title := "Error";
                         description := error |}])%list |}
    | Rejected _ =>
      {| messages := messages s; input := input s; transition := None;
         notices := notices s |}
    end
  end.

Definition step (s : ChatState) (e : Event) : ChatState :=
  match e with
  | Change value => handleChange value s
  | Submit => handleSubmit s
  | Settled o => resume o s
  end.

(** States the component can be in. *)
Inductive reachable : ChatState -> Prop :=
| reachable_init : reachable initialChat
| reachable_step s e : reachable s -> reachable (step s e).

End Component.

End DesignChat.

(* ===================================================================== *)
(** * actions.ts                                                          *)
(* ===================================================================== *)

Module Actions.

Section HandleAction.
Context {T U : Type}.

(** The [try] block of [handleAction]. *)
Definition handleAction_try (input : T) (action : T -> Outcome U)
  : M (ActionResult U) (ActionResult U) :=
  result <- await (action input) ;;
  return_ (Success result).

(** The [catch] block ([console.error] writes to the server log only). *)
Definition handleAction_catch (error : JsThrown)
  : M (ActionResult U) (ActionResult U) :=
  let errorMessage := message_or "An unknown error occurred." error in
  return_ (Failure errorMessage).

Definition handleAction {R} (input : T) (action : T -> Outcome U)
  : M R (ActionResult U) :=
  call (try_catch (handleAction_try input action) handleAction_catch).

End HandleAction.

(** The flows imported from [@/ai/flows/...] are not among the sources:
    their input types, output types and behaviour (a promise that
    resolves or rejects) are parameters. *)
Section Flows.
Variables GenerateInteriorDesignFromPromptInput
          GenerateInteriorDesignFromPromptOutput : Type.
Variables EditInteriorDesignWithTextInput EditInteriorDesignWithTextOutput : Type.
Variables GenerateImageFromCadFloorPlanInput
          GenerateImageFromCadFloorPlanOutput : Type.
Variables GetDesignSuggestionsInput GetDesignSuggestionsOutput : Type.
Variables SummarizeDesignStylesInput SummarizeDesignStylesOutput : Type.
Variables GenerateImagePromptInput GenerateImagePromptOutput : Type.
Variables SuggestImageEditsInput SuggestImageEditsOutput : Type.

Variable generateInteriorDesignFromPrompt :
  GenerateInteriorDesignFromPromptInput -> Outcome GenerateInteriorDesignFromPromptOutput.
Variable editInteriorDesignWithText :
  EditInteriorDesignWithTextInput -> Outcome EditInteriorDesignWithTextOutput.
Variable generateImageFromCadFloorPlan :
  GenerateImageFromCadFloorPlanInput -> Outcome GenerateImageFromCadFloorPlanOutput.
Variable getDesignSuggestionsFromChat :
  GetDesignSuggestionsInput -> Outcome GetDesignSuggestionsOutput.
Variable summarizeDesignStyles :
  SummarizeDesignStylesInput -> Outcome SummarizeDesignStylesOutput.
Variable generateImagePrompt :
  GenerateImagePromptInput -> Outcome GenerateImagePromptOutput.
Variable suggestImageEdits :
  SuggestImageEditsInput -> Outcome SuggestImageEditsOutput.

Context {R : Type}.

Definition generateDesignAction (input : GenerateInteriorDesignFromPromptInput)
  : M R (ActionResult GenerateInteriorDesignFromPromptOutput) :=
  handleAction input generateInteriorDesignFromPrompt.

Definition editDesignAction (input : EditInteriorDesignWithTextInput)
  : M R (ActionResult EditInteriorDesignWithTextOutput) :=
  handleAction input editInteriorDesignWithText.

Definition generateFromFloorPlanAction (input : GenerateImageFromCadFloorPlanInput)
  : M R (ActionResult GenerateImageFromCadFloorPlanOutput) :=
  handleAction input generateImageFromCadFloorPlan.

Definition getChatSuggestionAction (input : GetDesignSuggestionsInput)
  : M R (ActionResult GetDesignSuggestionsOutput) :=
  handleAction input getDesignSuggestionsFromChat.

Definition summarizeStylesAction (input : SummarizeDesignStylesInput)
  : M R (ActionResult SummarizeDesignStylesOutput) :=
  handleAction input summarizeDesignStyles.

Definition generatePromptAction (input : GenerateImagePromptInput)
  : M R (ActionResult GenerateImagePromptOutput) :=
  handleAction input generateImagePrompt.

Definition suggestEditsAction (input : SuggestImageEditsInput)
  : M R (ActionResult SuggestImageEditsOutput) :=
  handleAction input suggestImageEdits.

End Flows.

End Actions.

(* ===================================================================== *)
(** * utils.ts                                                            *)
(* ===================================================================== *)

Module Utils.

(** A JavaScript string as the sequence of its UTF-16 code units.  The
    characters this file looks at (the backtick, the letters of [json],
    white space) are all single code units. *)
Definition CodeUnits : Type := list N.

(** The characters [\s] matches and [trim] removes: the [WhiteSpace] and
    [LineTerminator] code points of ECMAScript. *)
Definition is_white_space (c : N) : bool :=
  match c with
  | 9%N | 10%N | 11%N | 12%N | 13%N | 32%N | 160%N | 5760%N
  | 8232%N | 8233%N | 8239%N | 8287%N | 12288%N | 65279%N => true
  | _ => N.leb 8192 c && N.leb c 8202
  end.

Definition backtick : N := 96%N.

(** The characters of [```json]. *)
Definition opening_fence : CodeUnits :=
  [backtick; backtick; backtick; 106%N; 115%N; 111%N; 110%N].

(** The characters of [```]. *)
Definition closing_fence : CodeUnits := [backtick; backtick; backtick].

(** [s] without the prefix [p], when it starts with it. *)
Fixpoint strip_prefix (p s : CodeUnits) : option CodeUnits :=
  match p, s with
  | [], _ => Some s
  | _ :: _, [] => None
  | x :: p', y :: s' => if N.eqb x y then strip_prefix p' s' else None
  end.

(** What a greedy [\s*] leaves. *)
Fixpoint skip_white_space (s : CodeUnits) : CodeUnits :=
  match s with
  | [] => []
  | c :: rest => if is_white_space c then skip_white_space rest else s
  end.

(** [s.replace(/^```json\s*/, '')] *)
Definition replace_opening_fence (s : CodeUnits) : CodeUnits :=
  match strip_prefix opening_fence s with
  | Some rest => skip_white_space rest
  | None => s
  end.

(** [s.replace(/```$/, '')]: without the [m] flag, [$] is the end of the
    string. *)
Definition replace_closing_fence (s : CodeUnits) : CodeUnits :=
  match strip_prefix closing_fence (rev s) with
  | Some rest => rev rest
  | None => s
  end.

(** [s.trim()] *)
Definition trim (s : CodeUnits) : CodeUnits :=
  rev (skip_white_space (rev (skip_white_space s))).

Definition cleanJsonString (jsonString : CodeUnits) : CodeUnits :=
  let cleanedString := replace_closing_fence (replace_opening_fence jsonString) in
  trim cleanedString.

End Utils.

(* ===================================================================== *)
(** * style-selector.tsx                                                  *)
(* ===================================================================== *)

Module StyleSelector.

Definition designStyles : list string :=
  ["Modern"; "Minimalist"; "Scandinavian"; "Bohemian"; "Industrial"; "Coastal"].

(** The click handler of the card rendered for [designStyles[card]]:
    [onClick={() => onStyleSelect(style)}].  There is no card past the
    end of the list. *)
Definition onClick {R} (onStyleSelect : string -> M R unit) (card : nat) : M R unit :=
  match nth_error designStyles card with
  | Some style => onStyleSelect style
  | None => ret tt
  end.

End StyleSelector.

(* ===================================================================== *)
(** * studio.tsx: the remaining state setters                             *)
(* ===================================================================== *)

Module Setters.

Definition setStyle {R} (v : string) : M R unit :=
  fun st =>
    let s := studio st in
    (Normal tt,
     {| studio := {| prompt := prompt s; style := v; activeTab := activeTab s;
                     sourceImageFile := sourceImageFile s;
                     floorPlanFile := floorPlanFile s;
                     generatedImages := generatedImages s;
                     selectedImageIndex := selectedImageIndex s |};
        toasts := toasts st; network := network st |}).

Definition setActiveTab {R} (v : string) : M R unit :=
  fun st =>
    let s := studio st in
    (Normal tt,
     {| studio := {| prompt := prompt s; style := style s; activeTab := v;
                     sourceImageFile := sourceImageFile s;
                     floorPlanFile := floorPlanFile s;
                     generatedImages := generatedImages s;
                     selectedImageIndex := selectedImageIndex s |};
        toasts := toasts st; network := network st |}).

Definition setSourceImageFile {R} (v : option File) : M R unit :=
  fun st =>
    let s := studio st in
    (Normal tt,
     {| studio := {| prompt := prompt s; style := style s; activeTab := activeTab s;
                     sourceImageFile := v;
                     floorPlanFile := floorPlanFile s;
                     generatedImages := generatedImages s;
                     selectedImageIndex := selectedImageIndex s |};
        toasts := toasts st; network := network st |}).

Definition setFloorPlanFile {R} (v : option File) : M R unit :=
  fun st =>
    let s := studio st in
    (Normal tt,
     {| studio := {| prompt := prompt s; style := style s; activeTab := activeTab s;
                     sourceImageFile := sourceImageFile s;
                     floorPlanFile := v;
                     generatedImages := generatedImages s;
                     selectedImageIndex := selectedImageIndex s |};
        toasts := toasts st; network := network st |}).

End Setters.

(* ===================================================================== *)
(** * generation-panel.tsx                                                *)
(* ===================================================================== *)

Module GenerationPanel.

(** [e.target.files?.[0] ?? null] *)
Definition first_file (files : option (list File)) : option File :=
  match files with
  | Some (file :: _) => Some file
  | _ => None
  end.

(** The [value]s of the three [TabsTrigger]s. *)
Definition tabs : list string := ["text"; "image"; "floorplan"].

Section Panel.
(** [String.prototype.trim] *)
Variable trim : string -> string.
Variable P : Platform.
Variable backendPrompt : Fetch GeneratePromptOutput.

(** [canSubmit(mode)], from the props [r] and [isLoading]. *)
Definition canSubmit (isLoading : bool) (r : StudioState) (mode : string) : bool :=
  if isLoading then false
  else if String.eqb mode "text" then
    Nat.ltb 0 (String.length (trim (prompt r))) && Nat.ltb 0 (String.length (style r))
  else if String.eqb mode "image" then
    negb (Studio.no_file (sourceImageFile r))
    && Nat.ltb 0 (String.length (trim (prompt r)))
  else if String.eqb mode "floorplan" then
    negb (Studio.no_file (floorPlanFile r)) && Nat.ltb 0 (String.length (style r))
  else false.

(** [AutoPromptGenerator.handleGenerate], from its state [topic] and its
    props [style] and [setPrompt] (the Studio's).  The transition callback
    has no [try]: a rejected call leaves it with an uncaught exception. *)
Definition handleGenerate {R} (topic : string) (style : string) : M R unit :=
  call
    (if str_falsy (trim topic) then
       toast (Studio.destructive "Topic is empty"
                "Please enter a topic to generate a prompt.") ;;
       return_ tt
     else
       Studio.startTransition
         (if str_falsy style then
            toast (Studio.destructive "Style not defined"
                     "Please select a design style first.") ;;
            return_ tt
          else
            result <- server_action P
              (generatePromptAction P backendPrompt
                 [("topic", JsString topic); ("style", JsString style)]) ;;
            match result with
            | Success data => Studio.setPrompt (gp_data data)
            | Failure error =>
              toast (Studio.destructive "Failed to generate prompt" error)
            end)).

End Panel.

End GenerationPanel.

(* ===================================================================== *)
(** * image-editor.tsx                                                    *)
(* ===================================================================== *)

Module ImageEditor.

(** [generatedImages ? generatedImages[selectedIndex] : null] *)
Definition selectedImage (generatedImages : option (list string)) (selectedIndex : nat)
  : option string :=
  match generatedImages with
  | Some images => nth_error images selectedIndex
  | None => None
  end.

(** Truthiness of [selectedImage]: [null], [undefined] and the empty
    string are falsy. *)
Definition truthy (image : option string) : bool :=
  match image with
  | Some s => negb (str_falsy s)
  | None => false
  end.

Definition showLoading (isLoading isEditing : bool) : bool := isLoading || isEditing.

(** The indexes that have a thumbnail button:
    [generatedImages && generatedImages.length > 1 && !showLoading &&
     generatedImages.map((image, index) => ...)]. *)
Definition thumbnails (generatedImages : option (list string)) (loading : bool)
  : list nat :=
  match generatedImages with
  | Some images =>
    if Nat.ltb 1 (length images) && negb loading then seq 0 (length images) else []
  | None => []
  end.

(** The edit form, the clear button and the download button are rendered
    when [selectedImage && !showLoading]. *)
Definition controls_shown (generatedImages : option (list string)) (selectedIndex : nat)
           (loading : bool) : bool :=
  truthy (selectedImage generatedImages selectedIndex) && negb loading.

(** [handleEditSubmit] of the editor, from its state [editPrompt] and its
    prop [onEdit]; the value is [editPrompt] afterwards. *)
Definition handleEditSubmit {R} (trim : string -> string)
           (onEdit : string -> M unit unit) (editPrompt : string) : M R string :=
  call
    (if negb (str_falsy (trim editPrompt)) then
       call (onEdit editPrompt) ;;
       ret ""
     else ret editPrompt).

End ImageEditor.

(* ===================================================================== *)
(** * The Studio page as a whole                                          *)
(* ===================================================================== *)

(** The controls of the Studio page ([GenerationPanel], [StyleSelector],
    [ImageEditor]), each bound to its React handler as the JSX binds it,
    with the guards the JSX puts on it: the [disabled] of the [Generate]
    button, and the conditional rendering of the thumbnails and of the
    edit controls.  The panels of the three tabs are not told apart, so
    a control of a hidden tab can be used as well.  Events are handled
    one at a time, every handler running to completion before the next
    event, so no transition is pending when an event arrives.  The
    [Suggest edits] and download buttons and the browser's default
    actions are not part of the machine. *)
Module Page.

Record PageState : Type := mkPage {
  store : Store;
  editPrompt : string       (* the editor's own state *)
}.

Definition initialPage : PageState :=
  {| store := {| studio := initialStudio; toasts := []; network := [] |};
     editPrompt := "" |}.

Inductive Event : Type :=
| TypePrompt (value : string)
| ClickStyle (card : nat)
| ClickTab (tab : nat)
| ChooseSourceImage (files : option (list File))
| ChooseFloorPlan (files : option (list File))
| ClickGenerate (P : Platform) (backendDesign : Fetch GenerateDesignOutput)
| AutoGeneratePrompt (P : Platform) (backendPrompt : Fetch GeneratePromptOutput)
                     (topic : string)
| ClickThumbnail (index : nat)
| TypeEdit (value : string)
| SubmitEdit (P : Platform) (backendChat : Fetch ChatOutput)
| ClickClear.

(** The store a handler leaves. *)
Definition exec {A} (handler : M unit A) (st : Store) : Store := snd (handler st).

Definition on_store (s : PageState) (handler : M unit unit) : PageState :=
  {| store := exec handler (store s); editPrompt := editPrompt s |}.

Section Machine.
Variable trim : string -> string.

Definition step (s : PageState) (e : Event) : PageState :=
  let r := studio (store s) in
  match e with
  | TypePrompt value => on_store s (Studio.setPrompt value)
  | ClickStyle card => on_store s (StyleSelector.onClick Setters.setStyle card)
  | ClickTab tab =>
    match nth_error GenerationPanel.tabs tab with
    | Some value => on_store s (Setters.setActiveTab value)
    | None => s
    end
  | ChooseSourceImage files =>
    on_store s (Setters.setSourceImageFile (GenerationPanel.first_file files))
  | ChooseFloorPlan files =>
    on_store s (Setters.setFloorPlanFile (GenerationPanel.first_file files))
  | ClickGenerate P backendDesign =>
    if GenerationPanel.canSubmit trim false r (activeTab r) then
      on_store s (Studio.handleGenerationSubmit P backendDesign r (activeTab r))
    else s
  | AutoGeneratePrompt P backendPrompt topic =>
    on_store s (GenerationPanel.handleGenerate trim P backendPrompt topic (style r))
  | ClickThumbnail index =>
    if existsb (Nat.eqb index)
         (ImageEditor.thumbnails (generatedImages r) false) then
      on_store s (Studio.setSelectedImageIndex index)
    else s
  | TypeEdit value =>
    if ImageEditor.controls_shown (generatedImages r) (selectedImageIndex r) false then
      {| store := store s; editPrompt := value |}
    else s
  | SubmitEdit P backendChat =>
    if ImageEditor.controls_shown (generatedImages r) (selectedImageIndex r) false then
      let run :=
        ImageEditor.handleEditSubmit (R := unit) trim
          (Studio.handleEditSubmit P backendChat r) (editPrompt s) (store s) in
      {| store := snd run;
         editPrompt := match fst run with
                       | Normal value => value
                       | _ => editPrompt s
                       end |}
    else s
  | ClickClear =>
    if ImageEditor.controls_shown (generatedImages r) (selectedImageIndex r) false then
      on_store s Studio.handleClear
    else s
  end.

Inductive reachable : PageState -> Prop :=
| reachable_init : reachable initialPage
| reachable_step s e : reachable s -> reachable (step s e).

End Machine.

End Page.

(* ===================================================================== *)
(** * Vocabulary of the statements                                        *)
(* ===================================================================== *)

(** [request] is the one request handed to the transport between the
    stores [st] and [st']. *)
Definition dispatched (st st' : Store) (request : Request) : Prop :=
  network st' = (network st ++ [request])%list.

(** No request was handed to the transport between [st] and [st']. *)
Definition nothing_dispatched (st st' : Store) : Prop :=
  network st' = network st.

(** The entries the multipart encoder keeps. *)
Definition defined (kv : string * JsValue) : bool := negb (is_nullish (snd kv)).

Section ClosedForm.
Context {U : Type}.
Variable P : Platform.

(** The request the function builds, when it gets as far as [fetch]. *)
Definition request_of (endpoint : string) (input : JsObject) : Outcome Request :=
  if String.eqb endpoint "/generate-design" then
    Resolved (form_request P endpoint input)
  else
    match JSON_stringify P input with
    | Resolved text => Resolved (json_request P endpoint text)
    | Rejected e => Rejected e
    end.

Definition with_request (st : Store) (request : Request) : Store :=
  {| studio := studio st; toasts := toasts st;
     network := (network st ++ [request])%list |}.

(** What the response leads to, once [fetch] has resolved. *)
Definition result_of_response (response : Response U) : ActionResult U :=
  if ok response then
    match json response with
    | Resolved result => Success result
    | Rejected e => Failure (message_or "An unknown error occurred." e)
    end
  else
    match text response with
    | Resolved errorText =>
      Failure (failed_status_message (status response) errorText)
    | Rejected e => Failure (message_or "An unknown error occurred." e)
    end.

End ClosedForm.

(** The message an action reports for a caught exception. *)
Definition caught_message (e : JsThrown) : string :=
  message_or "An unknown error occurred." e.

(** An exported action of [python-actions.ts] for the endpoint
    [endpoint] returns a tagged result whatever the transport does:
    - it always completes normally with an [ActionResult];
    - whatever its [try] block throws comes back as [Failure] with the
      exception's message, or the generic one;
    - in particular when building the request throws, when [fetch]
      rejects, and when the JSON body of a 2xx response does not parse. *)
Definition never_raises {U : Type} (endpoint : string)
  (action : forall (P : Platform) (R : Type),
      Fetch U -> JsObject -> M R (ActionResult U)) : Prop :=
  forall (P : Platform) (R : Type) (fetch : Fetch U) (input : JsObject) (st : Store),
    (exists result st', action P R fetch input st = (Normal result, st')) /\
    (forall e st',
        handleBackendRequest_try P fetch endpoint input st = (Throw e, st') ->
        action P R fetch input st = (Normal (Failure (caught_message e)), st')) /\
    (forall e,
        request_of P endpoint input = Rejected e ->
        fst (action P R fetch input st) = Normal (Failure (caught_message e))) /\
    (forall request e,
        request_of P endpoint input = Resolved request ->
        fetch request = Rejected e ->
        fst (action P R fetch input st) = Normal (Failure (caught_message e))) /\
    (forall request response e,
        request_of P endpoint input = Resolved request ->
        fetch request = Resolved response ->
        ok response = true ->
        json response = Rejected e ->
        fst (action P R fetch input st) = Normal (Failure (caught_message e))).

(** ** Studio *)

(** The session state with its image array replaced. *)
Definition with_images (v : option (list string)) (s : StudioState) : StudioState :=
  {| prompt := prompt s; style := style s; activeTab := activeTab s;
     sourceImageFile := sourceImageFile s; floorPlanFile := floorPlanFile s;
     generatedImages := v; selectedImageIndex := selectedImageIndex s |}.

(** The store once [handleGenerationSubmit] has run its first statement,
    [setGeneratedImages(null)]. *)
Definition cleared (st : Store) : Store :=
  {| studio := with_images None (studio st);
     toasts := toasts st; network := network st |}.

(** The store with one more notice. *)
Definition with_toast (st : Store) (t : Toast) : Store :=
  {| studio := studio st; toasts := (toasts st ++ [t])%list;
     network := network st |}.

(** A required field of the active mode is missing. *)
Definition missing_fields (r : StudioState) (mode : string) : Prop :=
  (mode = "text" /\ (prompt r = "" \/ style r = "")) \/
  (mode = "image" /\ (sourceImageFile r = None \/ prompt r = "")) \/
  (mode = "floorplan" /\ (floorPlanFile r = None \/ style r = "")).

(** The ways a generation submission fails, with the message each one
    leads to: the action returns an error result, an exception is thrown
    while [result] is computed, or (a case of the latter) the file cannot
    be read. *)
Inductive generation_failure (P : Platform) (backendDesign : Fetch GenerateDesignOutput)
          (r : StudioState) (mode : string) (st : Store) : string -> Prop :=
| returned_error (error : string) (st1 : Store) :
    Studio.generation_dispatch P backendDesign r mode (cleared st)
    = (Normal (Failure error), st1) ->
    generation_failure P backendDesign r mode st
      (str_or error "An unexpected error occurred.")
| exception_thrown (e : JsThrown) (st1 : Store) :
    Studio.generation_dispatch P backendDesign r mode (cleared st)
    = (Throw e, st1) ->
    generation_failure P backendDesign r mode st
      (message_or "Please try again later." e)
| file_read_failed (file : File) (e : JsThrown) :
    (mode = "image" /\ sourceImageFile r = Some file /\ prompt r <> "") \/
    (mode = "floorplan" /\ floorPlanFile r = Some file /\ style r <> "") ->
    readAsDataURL P file = Rejected e ->
    generation_failure P backendDesign r mode st
      (message_or "Please try again later." e).

(** The statements every mode of [generation_dispatch] ends with once its
    payload is built: call the action, show the images of a success, keep
    the result. *)
Definition design_call (P : Platform) (backendDesign : Fetch GenerateDesignOutput)
           (input : JsObject) : M unit (ActionResult GenerateDesignOutput) :=
  result <- server_action P (generateDesignAction P backendDesign input) ;;
  match result with
  | Success data => Studio.setGeneratedImages (Some (gd_data data))
  | Failure _ => ret tt
  end ;;
  ret result.

(** What the completion of the mode dispatch says about the store it
    leaves, [st'], given the store it started from, [st]. *)
Definition dispatch_effect (P : Platform) (backendDesign : Fetch GenerateDesignOutput)
           (st : Store) (c : Completion unit (ActionResult GenerateDesignOutput))
           (st' : Store) : Prop :=
  match c with
  | Normal (Success out) =>
    studio st' = with_images (Some (gd_data out)) (studio st) /\
    toasts st' = toasts st /\
    exists request response,
      dispatched st st' request /\
      backendDesign request = Resolved response /\
      ok response = true /\ json response = Resolved out
  | Normal (Failure _) => studio st' = studio st /\ toasts st' = toasts st
  | Throw _ => st' = st
  | Return _ =>
    st' = st \/
    exists description, st' = with_toast st (Studio.destructive "Missing fields" description)
  end.

(** The action called by the submission returned
    [{success: true, data: out}]. *)
Definition generation_success (P : Platform) (backendDesign : Fetch GenerateDesignOutput)
           (r : StudioState) (mode : string) (st : Store)
           (out : GenerateDesignOutput) : Prop :=
  exists st1,
    Studio.generation_dispatch P backendDesign r mode (cleared st)
    = (Normal (Success out), st1).

(** The payload of the edit request. *)
Definition edit_payload (editPrompt : string) : JsObject :=
  [("query", JsString ("Edit this image with the following prompt: " ++ editPrompt))].

(** The action call of an edit submission. *)
Definition edit_call (P : Platform) (backendChat : Fetch ChatOutput)
           (editPrompt : string) : M unit (ActionResult ChatOutput) :=
  server_action P (Studio.editDesignAction P backendChat (edit_payload editPrompt)).

(** The request an edit submission sends, given the text
    [JSON.stringify] made of its payload. *)
Definition edit_request (P : Platform) (text : string) : Request :=
  {| url := BACKEND_URL P ++ "/chat";
     method := "POST";
     headers := [("Content-Type", "application/json")];
     body := TextBody text |}.

(** The session state after a successful edit that returned [edited]. *)
Definition with_edited (edited : string) (s : StudioState) : StudioState :=
  {| prompt := prompt s; style := style s; activeTab := activeTab s;
     sourceImageFile := sourceImageFile s; floorPlanFile := floorPlanFile s;
     generatedImages := Some [edited]; selectedImageIndex := 0 |}.

(** ** DesignChat *)

(** While a transition is pending, the transcript is the one its callback
    captured as [newMessages], which is the [messages] it captured
    followed by the user's query. *)
Definition pending_consistent (s : DesignChat.ChatState) : Prop :=
  match DesignChat.transition s with
  | None => True
  | Some c =>
    DesignChat.messages s = DesignChat.c_newMessages c /\
    DesignChat.c_newMessages c
    = (DesignChat.c_messages c ++
       [{| DesignChat.role := DesignChat.user;
           DesignChat.content := DesignChat.c_query c |}])%list
  end.

(* ===================================================================== *)
(** * Concrete scenarios                                                  *)
(* ===================================================================== *)

Module Scenario.

(** A rendering of flat objects, enough for the payloads used below. *)
Definition show_value (v : JsValue) : string :=
  match v with
  | JsString s => String "034" (s ++ String "034" "")
  | JsNumber n => number_to_string n
  | JsBool true => "true"
  | JsBool false => "false"
  | _ => "null"
  end.

Fixpoint show_props (o : JsObject) : string :=
  match o with
  | [] => ""
  | [(k, v)] => String "034" (k ++ String "034" (":" ++ show_value v))
  | (k, v) :: rest =>
    String "034" (k ++ String "034" (":" ++ show_value v ++ "," ++ show_props rest))
  end.

(** No [BACKEND_URL] in the environment, files that read, a server action
    call that goes through. *)
Definition localPlatform : Platform :=
  {| env_BACKEND_URL := None;
     JSON_stringify := fun o => Resolved ("{" ++ show_props o ++ "}");
     readAsDataURL := fun f => Resolved ("data:image/png;base64," ++ file_name f);
     serverActionTransport := None |}.


(** HTTP 500 with body [model overloaded]. *)
Definition overloaded {U : Type} : Fetch U :=
  fun _ =>
    Resolved {| status := 500;
                text := Resolved "model overloaded";
                json := Rejected (JsError "Unexpected token m in JSON at position 0") |}.

(** The connection is refused. *)
Definition unreachable {U : Type} : Fetch U :=
  fun _ => Rejected (JsError "fetch failed").

(** The transport fails with something that is not an [Error]. *)
Definition aborted {U : Type} : Fetch U :=
  fun _ => Rejected (JsNonError (JsString "aborted")).

(** HTTP 200 with two images. *)
Definition twoImages : Fetch GenerateDesignOutput :=
  fun _ =>
    Resolved {| status := 200;
                text := Resolved "{...}";
                json := Resolved {| gd_data := ["data:image/png;base64,AAA";
                                                "data:image/png;base64,BBB"];
                                    gd_prompt := Some "Cozy Scandinavian living room";
                                    gd_final_prompt := None;
                                    gd_image_ids := None |} |}.

(** HTTP 200 from the chat endpoint. *)
Definition chatReply : Fetch ChatOutput :=
  fun _ =>
    Resolved {| status := 200;
                text := Resolved "{...}";
                json := Resolved {| chat_data := "Try a navy velvet sofa." |} |}.

(** [trim] on strings of ASCII characters: tab, line feed, vertical tab,
    form feed, carriage return and space are white space. *)
Definition is_white_space (c : ascii) : bool :=
  match nat_of_ascii c with
  | 9 | 10 | 11 | 12 | 13 | 32 => true
  | _ => false
  end.

Fixpoint trim_start (s : string) : string :=
  match s with
  | EmptyString => EmptyString
  | String c rest => if is_white_space c then trim_start rest else s
  end.

Fixpoint trim_end (s : string) : string :=
  match s with
  | EmptyString => EmptyString
  | String c rest =>
    match trim_end rest with
    | EmptyString => if is_white_space c then EmptyString else String c EmptyString
    | kept => String c kept
    end
  end.

Definition asciiTrim (s : string) : string := trim_end (trim_start s).

(** The chat after the user typed [hi] and submitted it. *)
Definition asked : DesignChat.ChatState :=
  DesignChat.step asciiTrim
    (DesignChat.step asciiTrim DesignChat.initialChat (DesignChat.Change "hi"))
    DesignChat.Submit.

Definition emptyStore : Store :=
  {| studio := initialStudio; toasts := []; network := [] |}.

(** A payload with an [undefined] and a [null] key. *)
Definition sparsePayload : JsObject :=
  [("prompt", JsString "Cozy Scandinavian living room");
   ("style", JsString "Scandinavian");
   ("mode", JsString "text");
   ("baseImage", JsUndefined);
   ("floorPlan", JsNull)].

(** A session that shows two images, the second one selected. *)
Definition showingTwo : StudioState :=
  {| prompt := "a reading corner"; style := "Modern"; activeTab := "image";
     sourceImageFile := None; floorPlanFile := None;
     generatedImages := Some ["data:image/png;base64,AAA";
                              "data:image/png;base64,BBB"];
     selectedImageIndex := 1 |}.

(** The text-mode form filled in, nothing generated yet. *)
Definition cozy : StudioState :=
  {| prompt := "Cozy Scandinavian living room"; style := "Scandinavian";
     activeTab := "text";
     sourceImageFile := None; floorPlanFile := None;
     generatedImages := None; selectedImageIndex := 0 |}.

Definition storeCozy : Store :=
  {| studio := cozy; toasts := []; network := [] |}.

Definition storeShowingTwo : Store :=
  {| studio := showingTwo; toasts := []; network := [] |}.

End Scenario.

(* ===================================================================== *)
(** * Vocabulary of the further statements                                *)
(* ===================================================================== *)

(** Every request an action hands to the transport is a [POST] to
    [<BACKEND_URL><endpoint>]; its body is a [FormData] without headers
    ([form = true]) or a string with the JSON content type. *)
Definition posts_to {U : Type} (endpoint : string) (form : bool)
  (action : forall (P : Platform) (R : Type),
      Fetch U -> JsObject -> M R (ActionResult U)) : Prop :=
  forall (P : Platform) (R : Type) (fetch : Fetch U) (input : JsObject)
         (st : Store) (request : Request),
    dispatched st (snd (action P R fetch input st)) request ->
    url request = BACKEND_URL P ++ endpoint /\
    method request = "POST" /\
    if form then
      headers request = [] /\ exists fields, body request = FormDataBody fields
    else
      headers request = [("Content-Type", "application/json")] /\
      exists text, body request = TextBody text.

(** An action of [actions.ts] built on [flow] returns the flow's value
    tagged as a success, or the message of what the flow rejects with
    tagged as a failure; it completes normally and leaves the store as it
    was. *)
Definition returns_tagged {T U : Type} (flow : T -> Outcome U)
  (action : forall R : Type, T -> M R (ActionResult U)) : Prop :=
  forall (R : Type) (input : T) (st : Store),
    action R input st
    = (Normal match flow input with
              | Resolved result => Success result
              | Rejected e => Failure (caught_message e)
              end,
       st).

(** Two calls of [handleBackendRequest] in a row, as a caller writes
    them. *)
Definition call_twice {U : Type} (P : Platform) (fetch : Fetch U)
           (endpoint : string) (input : JsObject)
  : M unit (ActionResult U * ActionResult U) :=
  first <- handleBackendRequest P fetch endpoint input ;;
  second <- handleBackendRequest P fetch endpoint input ;;
  ret (first, second).

(** The session state with its prompt replaced. *)
Definition with_prompt (v : string) (s : StudioState) : StudioState :=
  {| prompt := v; style := style s; activeTab := activeTab s;
     sourceImageFile := sourceImageFile s; floorPlanFile := floorPlanFile s;
     generatedImages := generatedImages s;
     selectedImageIndex := selectedImageIndex s |}.


(** The request of a generation submission with the form fields
    [fields]. *)
Definition design_request (P : Platform) (fields : list (string * JsValue)) : Request :=
  {| url := BACKEND_URL P ++ "/generate-design";
     method := "POST";
     headers := [];
     body := FormDataBody fields |}.

(** The action call of the prompt generator. *)
Definition prompt_call (P : Platform) (backendPrompt : Fetch GeneratePromptOutput)
           (topic style : string) : M unit (ActionResult GeneratePromptOutput) :=
  server_action P
    (generatePromptAction P backendPrompt
       [("topic", JsString topic); ("style", JsString style)]).



(** Every assistant message comes directly after a user message;
    [after_user] tells whether the message before the list is the
    user's. *)
Fixpoint replies_follow (after_user : bool) (l : list DesignChat.Message) : bool :=
  match l with
  | [] => true
  | m :: rest =>
    match DesignChat.role m with
    | DesignChat.user => replies_follow true rest
    | DesignChat.assistant => after_user && replies_follow false rest
    end
  end.


(** An event of the chat other than the reply settling. *)
Definition is_input (e : DesignChat.Event) : bool :=
  match e with
  | DesignChat.Settled _ => false
  | _ => true
  end.

(** The chat after a sequence of events. *)
Definition run_events (trim : string -> string) (s : DesignChat.ChatState)
           (events : list DesignChat.Event) : DesignChat.ChatState :=
  fold_left (DesignChat.step trim) events s.

(** The invariant of the chat behind [replies_follow]. *)
Definition chat_well_formed (s : DesignChat.ChatState) : Prop :=
  replies_follow false (DesignChat.messages s) = true /\
  match DesignChat.transition s with
  | None => True
  | Some c =>
    replies_follow false (DesignChat.c_messages c) = true /\
    DesignChat.messages s = DesignChat.c_newMessages c /\
    DesignChat.c_newMessages c
    = (DesignChat.c_messages c ++
       [{| DesignChat.role := DesignChat.user;
           DesignChat.content := DesignChat.c_query c |}])%list
  end.

(** A string of code units has no white space at either end. *)
Definition trimmed (s : Utils.CodeUnits) : Prop :=
  Utils.skip_white_space s = s /\ Utils.skip_white_space (rev s) = rev s.



(** The store with the prompt of its session replaced. *)
Definition store_with_prompt (v : string) (st : Store) : Store :=
  {| studio := with_prompt v (studio st);
     toasts := toasts st; network := network st |}.

Module Scenario2.

(** HTTP 502 whose body cannot be read. *)
Definition brokenBody {U : Type} : Fetch U :=
  fun _ =>
    Resolved {| status := 502;
                text := Rejected (JsError "terminated");
                json := Rejected (JsError "terminated") |}.

(** A platform whose [JSON.stringify] throws. *)
Definition cyclicPlatform : Platform :=
  {| env_BACKEND_URL := Some "http://backend:9000";
     JSON_stringify :=
       fun _ => Rejected (JsError "Converting circular structure to JSON");
     readAsDataURL := fun f => Resolved ("data:image/png;base64," ++ file_name f);
     serverActionTransport := None |}.


(** HTTP 200 from the prompt endpoint. *)
Definition promptReply : Fetch GeneratePromptOutput :=
  fun _ =>
    Resolved {| status := 200;
                text := Resolved "{...}";
                json := Resolved {| gp_data := "A sunlit modern kitchen" |} |}.

Definition sofa : File := {| file_name := "sofa.png" |}.

(** The image-mode form filled in, with no style. *)
Definition staging : StudioState :=
  {| prompt := "add a red sofa"; style := ""; activeTab := "image";
     sourceImageFile := Some sofa; floorPlanFile := None;
     generatedImages := None; selectedImageIndex := 0 |}.

Definition storeStaging : Store :=
  {| studio := staging; toasts := []; network := [] |}.

(** The floor-plan form filled in, with no prompt. *)
Definition planning : StudioState :=
  {| prompt := ""; style := "Coastal"; activeTab := "floorplan";
     sourceImageFile := None; floorPlanFile := Some {| file_name := "plan.png" |};
     generatedImages := None; selectedImageIndex := 0 |}.

(** A flow of [actions.ts] that doubles a number, and one that fails. *)
Definition doubling (n : nat) : Outcome nat := Resolved (2 * n).
Definition failing (n : nat) : Outcome nat := Rejected (JsNonError (JsNumber n)).

(** The characters of [{"a":1}] and of a line feed. *)
Definition jsonBody : Utils.CodeUnits :=
  [123; 34; 97; 34; 58; 49; 125]%N.
Definition lineFeed : N := 10%N.




(** A chat in which [hi] has been typed. *)
Definition typedHi : DesignChat.ChatState :=
  DesignChat.step Scenario.asciiTrim DesignChat.initialChat (DesignChat.Change "hi").

End Scenario2.

(* ===================================================================== *)
(** * Properties                                                          *)
(* ===================================================================== *)


(** Unfolding of the monad's combinators. *)
Ltac monad_unfold :=
  unfold server_action, do_fetch, await, toast, try_catch, call, bind, ret,
    return_, throw in *.

Section StringFacts.






Lemma str_falsy_true (s : string) : str_falsy s = true <-> s = "".
Proof. unfold str_falsy. apply String.eqb_eq. Qed.

Lemma str_or_nonempty (s d : string) : s <> "" -> str_or s d = s.
Proof.
  intros H. unfold str_or. destruct (String.eqb_spec s ""); congruence.
Qed.

End StringFacts.

(** ** The multipart encoder *)

Section FormData.


Lemma fill_fold (l acc : list (string * JsValue)) :
  fold_left
    (fun formData '(key, value) =>
       if negb (is_nullish value) then append formData key value else formData)
    l acc
  = (acc ++ filter defined l)%list.
Proof.
  revert acc. induction l as [|[k v] l IH]; intros acc; simpl.
  - now rewrite app_nil_r.
  - rewrite IH. unfold defined at 2. simpl.
    destruct (is_nullish v); simpl.
    + reflexivity.
    + unfold append. now rewrite <- app_assoc.
Qed.

Lemma fill_form_data_filter (input : JsObject) :
  fill_form_data input = filter defined input.
Proof. unfold fill_form_data, Object_entries. now rewrite fill_fold. Qed.

Lemma keys_filter_incl (f : string * JsValue -> bool) (l : JsObject) (k : string) :
  In k (map fst (filter f l)) -> In k (map fst l).
Proof.
  intros H. apply in_map_iff in H. destruct H as [[k' v] [E H]].
  apply filter_In in H. destruct H as [H _].
  apply in_map_iff. now exists (k', v).
Qed.

Lemma keys_filter_NoDup (f : string * JsValue -> bool) (l : JsObject) :
  NoDup (map fst l) -> NoDup (map fst (filter f l)).
Proof.
  induction l as [|[k v] l IH]; simpl; intros H.
  - constructor.
  - inversion H as [|? ? Hk Hl]; subst.
    destruct (f (k, v)); simpl; auto.
    constructor; auto.
    intros Hin. apply Hk. eapply keys_filter_incl; eauto.
Qed.

Lemma unique_key_value (l : JsObject) (k : string) (v v' : JsValue) :
  NoDup (map fst l) -> In (k, v) l -> In (k, v') l -> v = v'.
Proof.
  induction l as [|[k0 v0] l IH]; simpl; intros H H1 H2.
  - contradiction.
  - inversion H as [|? ? Hk Hl]; subst.
    destruct H1 as [H1|H1], H2 as [H2|H2].
    + congruence.
    + inversion H1; subst. exfalso. apply Hk.
      apply in_map_iff. now exists (k, v').
    + inversion H2; subst. exfalso. apply Hk.
      apply in_map_iff. now exists (k, v).
    + auto.
Qed.

End FormData.

(** ** [handleBackendRequest] *)

Section BackendRequest.
Context {U : Type}.
Variable P : Platform.
Variable fetch : Fetch U.

(** The function returns what its [try] block returns, and the message
    of what the block throws. *)
Lemma handleBackendRequest_unfold {R} (endpoint : string) (input : JsObject) (st : Store) :
  @handleBackendRequest U P fetch R endpoint input st =
  match handleBackendRequest_try P fetch endpoint input st with
  | (Normal result, st') => (Normal result, st')
  | (Return result, st') => (Normal result, st')
  | (Throw e, st') =>
    (Normal (Failure (message_or "An unknown error occurred." e)), st')
  end.
Proof.
  unfold handleBackendRequest, handleBackendRequest_catch, call, try_catch, return_.
  destruct (handleBackendRequest_try P fetch endpoint input st) as [[a|a|e] st'];
    reflexivity.
Qed.

Lemma handleBackendRequest_total {R} (endpoint : string) (input : JsObject) (st : Store) :
  exists result st',
    @handleBackendRequest U P fetch R endpoint input st = (Normal result, st').
Proof.
  rewrite handleBackendRequest_unfold.
  destruct (handleBackendRequest_try P fetch endpoint input st) as [[a|a|e] st'];
    eauto.
Qed.


(** A closed form of the function: every path through it. *)
Lemma handleBackendRequest_run {R} (endpoint : string) (input : JsObject) (st : Store) :
  @handleBackendRequest U P fetch R endpoint input st =
  match request_of P endpoint input with
  | Rejected e => (Normal (Failure (message_or "An unknown error occurred." e)), st)
  | Resolved request =>
    match fetch request with
    | Rejected e =>
      (Normal (Failure (message_or "An unknown error occurred." e)),
       with_request st request)
    | Resolved response =>
      (Normal (result_of_response response), with_request st request)
    end
  end.
Proof.
  rewrite handleBackendRequest_unfold.
  unfold handleBackendRequest_try, request_of, result_of_response, with_request.
  monad_unfold.
  destruct (String.eqb endpoint "/generate-design").
  - destruct (fetch (form_request P endpoint input)) as [response|e]; [|reflexivity].
    destruct (ok response); simpl.
    + destruct (json response); reflexivity.
    + destruct (text response); reflexivity.
  - destruct (JSON_stringify P input) as [body|e]; [|reflexivity].
    destruct (fetch (json_request P endpoint body)) as [response|e]; [|reflexivity].
    destruct (ok response); simpl.
    + destruct (json response); reflexivity.
    + destruct (text response); reflexivity.
Qed.

(** The function writes nothing but the network log. *)
Lemma handleBackendRequest_frame {R} (endpoint : string) (input : JsObject) (st : Store) :
  let st' := snd (@handleBackendRequest U P fetch R endpoint input st) in
  studio st' = studio st /\ toasts st' = toasts st.
Proof.
  rewrite handleBackendRequest_run.
  destruct (request_of P endpoint input) as [request|e]; simpl; auto.
  destruct (fetch request); simpl; auto.
Qed.

(** Whatever was dispatched is the request the function builds. *)
Lemma dispatched_request_of {R} (endpoint : string) (input : JsObject)
      (st : Store) (request : Request) :
  dispatched st (snd (@handleBackendRequest U P fetch R endpoint input st)) request ->
  request_of P endpoint input = Resolved request.
Proof.
  rewrite handleBackendRequest_run. unfold dispatched.
  destruct (request_of P endpoint input) as [request'|e].
  - assert (E : forall c : Completion R (ActionResult U),
               network (snd (c, with_request st request'))
               = (network st ++ [request'])%list) by reflexivity.
    destruct (fetch request'); rewrite E; intros H;
      apply app_inv_head in H; congruence.
  - simpl. intros H. rewrite <- (app_nil_r (network st)) in H at 1.
    apply app_inv_head in H. discriminate.
Qed.

End BackendRequest.

Section Wrappers.

Lemma handleBackendRequest_never_raises {U : Type} (endpoint : string) :
  never_raises endpoint
    (fun P R fetch input => @handleBackendRequest U P fetch R endpoint input).
Proof.
  intros P R fetch input st. repeat split.
  - apply handleBackendRequest_total.
  - intros e st' H. rewrite handleBackendRequest_unfold, H. reflexivity.
  - intros e H. rewrite handleBackendRequest_run, H. reflexivity.
  - intros request e H1 H2. rewrite handleBackendRequest_run, H1, H2. reflexivity.
  - intros request response e H1 H2 H3 H4.
    rewrite handleBackendRequest_run, H1, H2. simpl.
    unfold result_of_response. rewrite H3, H4. reflexivity.
Qed.

End Wrappers.

(** ** C4 *)





(** ** C5 *)

(** C5. Each of the eleven exported actions returns a tagged result and
    never raises, for every input and every behaviour of the transport:
    what the [try] block throws (while building the request, from
    [fetch], or from parsing the JSON body of a 2xx response) comes back
    as [{success: false, error}], where [error] is the exception's
    message, or ['An unknown error occurred.'] when the thrown value is
    not an [Error]. *)
Theorem action_wrappers_never_raise :
  never_raises "/generate-design" (@generateDesignAction) /\
  never_raises "/chat" (@chatAction) /\
  never_raises "/suggest-edits" (@suggestEditsAction) /\
  never_raises "/generate-new-prompt" (@generatePromptAction) /\
  never_raises "/flow/generate-image-prompt" (@flowGenerateImagePrompt) /\
  never_raises "/flow/generate-interior-design-from-prompt"
    (@flowGenerateInteriorDesign) /\
  never_raises "/flow/edit-interior-design-with-text" (@flowEditInteriorDesign) /\
  never_raises "/flow/get-design-suggestions-from-chat"
    (@flowGetDesignSuggestions) /\
  never_raises "/flow/summarize-design-styles" (@flowSummarizeDesignStyles) /\
  never_raises "/flow/suggest-image-edits" (@flowSuggestImageEdits) /\
  never_raises "/flow/generate-image-from-cad-floor-plan"
    (@flowGenerateImageFromCadFloorPlan).
Proof.
  repeat apply conj; exact (handleBackendRequest_never_raises _).
Qed.

Lemma action_wrappers_never_raise_witness :
  fst (@chatAction Scenario.localPlatform unit Scenario.aborted
         [("query", JsString "hi")] Scenario.emptyStore)
  = Normal (Failure "An unknown error occurred.")
  /\
  fst (@generateDesignAction Scenario.localPlatform unit Scenario.unreachable
         Scenario.sparsePayload Scenario.emptyStore)
  = Normal (Failure "fetch failed").
Proof.
  destruct action_wrappers_never_raise as [Hgenerate [Hchat _]].
  split.
  - destruct (Hchat Scenario.localPlatform unit Scenario.aborted
                [("query", JsString "hi")] Scenario.emptyStore)
      as [_ [_ [_ [Hnetwork _]]]].
    apply (Hnetwork
             (json_request Scenario.localPlatform "/chat"
                (String "{" (String "034" "query" ++ String "034" ":"
                             ++ String "034" "hi" ++ String "034" "}")))
             (JsNonError (JsString "aborted"))); reflexivity.
  - destruct (Hgenerate Scenario.localPlatform unit Scenario.unreachable
                Scenario.sparsePayload Scenario.emptyStore)
      as [_ [_ [_ [Hnetwork _]]]].
    apply (Hnetwork
             (form_request Scenario.localPlatform "/generate-design"
                Scenario.sparsePayload)
             (JsError "fetch failed")); reflexivity.
Defined.

(** ** C8 *)

(** C8. For a payload object (its keys are distinct) sent to
    [/generate-design], the one request handed to the transport is a
    [POST] whose body is a [FormData] holding exactly the entries whose
    value is neither [undefined] nor [null], each once and in order: every
    such key is a field, every [undefined]/[null]-valued key is absent,
    and every field comes from such an entry.  For every other endpoint
    the request is a [POST] whose body is [JSON.stringify(input)] and
    whose only header is [Content-Type: application/json]. *)
Theorem payload_encoding :
  forall (U : Type) (P : Platform) (fetch : Fetch U) (R : Type)
         (input : JsObject) (st : Store),
    NoDup (map fst input) ->
    (exists fields,
        dispatched st
          (snd (@handleBackendRequest U P fetch R "/generate-design" input st))
          {| url := BACKEND_URL P ++ "/generate-design";
             method := "POST";
             headers := [];
             body := FormDataBody fields |} /\
        fields = filter defined input /\
        (forall k v, In (k, v) input -> is_nullish v = false ->
                     In (k, v) fields /\
                     count_occ string_dec (map fst fields) k = 1) /\
        (forall k v, In (k, v) input -> is_nullish v = true ->
                     ~ In k (map fst fields)) /\
        (forall k, In k (map fst fields) ->
                   exists v, In (k, v) input /\ is_nullish v = false))
    /\
    (forall endpoint text,
        endpoint <> "/generate-design" ->
        JSON_stringify P input = Resolved text ->
        dispatched st
          (snd (@handleBackendRequest U P fetch R endpoint input st))
          {| url := BACKEND_URL P ++ endpoint;
             method := "POST";
             headers := [("Content-Type", "application/json")];
             body := TextBody text |}).
Proof.
  intros U P fetch R input st Hkeys. split.
  - exists (filter defined input).
    split; [|split; [reflexivity|split; [|split]]].
    + rewrite handleBackendRequest_run. unfold request_of. simpl.
      unfold form_request. rewrite fill_form_data_filter.
      destruct (fetch _); reflexivity.
    + intros k v Hin Hv.
      assert (Hf : In (k, v) (filter defined input)).
      { apply filter_In. split; [assumption|]. unfold defined. simpl. now rewrite Hv. }
      split; [assumption|].
      apply NoDup_count_occ'.
      * now apply keys_filter_NoDup.
      * apply in_map_iff. now exists (k, v).
    + intros k v Hin Hv Hk.
      apply in_map_iff in Hk. destruct Hk as [[k' v'] [E Hk]]. simpl in E. subst k'.
      apply filter_In in Hk. destruct Hk as [Hin' Hd].
      assert (v = v') by (eapply unique_key_value; eauto). subst v'.
      unfold defined in Hd. simpl in Hd. rewrite Hv in Hd. discriminate.
    + intros k Hk.
      apply in_map_iff in Hk. destruct Hk as [[k' v'] [E Hk]]. simpl in E. subst k'.
      apply filter_In in Hk. destruct Hk as [Hin' Hd].
      exists v'. split; [assumption|].
      unfold defined in Hd. simpl in Hd. now destruct (is_nullish v').
  - intros endpoint text Hne Htext.
    rewrite handleBackendRequest_run. unfold request_of.
    destruct (String.eqb_spec endpoint "/generate-design") as [E|_]; [contradiction|].
    rewrite Htext. unfold json_request.
    destruct (fetch _); reflexivity.
Qed.

Lemma payload_encoding_witness :
  dispatched Scenario.emptyStore
    (snd (@handleBackendRequest GenerateDesignOutput Scenario.localPlatform
            Scenario.twoImages unit "/generate-design" Scenario.sparsePayload
            Scenario.emptyStore))
    {| url := "http://localhost:8001/generate-design";
       method := "POST";
       headers := [];
       body := FormDataBody
                 [("prompt", JsString "Cozy Scandinavian living room");
                  ("style", JsString "Scandinavian");
                  ("mode", JsString "text")] |}
  /\
  dispatched Scenario.emptyStore
    (snd (@handleBackendRequest GenerateDesignOutput Scenario.localPlatform
            Scenario.twoImages unit "/chat" Scenario.sparsePayload
            Scenario.emptyStore))
    {| url := "http://localhost:8001/chat";
       method := "POST";
       headers := [("Content-Type", "application/json")];
       body := TextBody
                 ("{" ++ Scenario.show_props Scenario.sparsePayload ++ "}") |}.
Proof.
  assert (Hkeys : NoDup (map fst Scenario.sparsePayload)).
  { simpl. repeat constructor; simpl; intuition discriminate. }
  destruct (payload_encoding GenerateDesignOutput Scenario.localPlatform
              Scenario.twoImages unit Scenario.sparsePayload Scenario.emptyStore
              Hkeys) as [[fields [Hsent [Hfields _]]] Hjson].
  split.
  - subst fields. exact Hsent.
  - apply (Hjson "/chat"
             ("{" ++ Scenario.show_props Scenario.sparsePayload ++ "}")).
    + discriminate.
    + reflexivity.
Defined.

(** ** Calls from the Studio to the server actions *)

Section ActionCalls.
Context {U : Type}.
Variable P : Platform.
Variable fetch : Fetch U.

(** A call either fails in the framework's transport, before anything
    happens, or runs [handleBackendRequest]. *)
Lemma server_action_run {R} (endpoint : string) (input : JsObject) (st : Store) :
  @server_action R _ P (@handleBackendRequest U P fetch R endpoint input) st =
  match serverActionTransport P with
  | Some e => (Throw e, st)
  | None =>
    match request_of P endpoint input with
    | Rejected e => (Normal (Failure (caught_message e)), st)
    | Resolved request =>
      match fetch request with
      | Rejected e =>
        (Normal (Failure (caught_message e)), with_request st request)
      | Resolved response =>
        (Normal (result_of_response response), with_request st request)
      end
    end
  end.
Proof.
  unfold server_action. destruct (serverActionTransport P); [reflexivity|].
  apply handleBackendRequest_run.
Qed.

(** What a call can do to the store, by its completion. *)
Lemma server_action_cases {R} (endpoint : string) (input : JsObject) (st : Store) :
  let run := @server_action R _ P (@handleBackendRequest U P fetch R endpoint input) st in
  studio (snd run) = studio st /\ toasts (snd run) = toasts st /\
  match fst run with
  | Normal (Success out) =>
    exists request response,
      request_of P endpoint input = Resolved request /\
      dispatched st (snd run) request /\
      fetch request = Resolved response /\
      ok response = true /\ json response = Resolved out
  | Normal (Failure _) => True
  | Return _ => False
  | Throw e => serverActionTransport P = Some e /\ snd run = st
  end.
Proof.
  cbv zeta. rewrite server_action_run.
  destruct (serverActionTransport P) as [e|]; simpl; [auto|].
  destruct (request_of P endpoint input) as [request|e]; simpl; [|auto].
  destruct (fetch request) as [response|e] eqn:Hf; simpl; [|auto].
  repeat split.
  unfold result_of_response.
  destruct (ok response) eqn:Hok.
  - destruct (json response) as [out|e] eqn:Hj; [|exact I].
    exists request, response. repeat split; auto.
  - destruct (text response); exact I.
Qed.

End ActionCalls.

(** ** The mode dispatch of [handleGenerationSubmit] *)

Section GenerationDispatch.
Variable P : Platform.
Variable backendDesign : Fetch GenerateDesignOutput.

Lemma design_call_effect (input : JsObject) (st : Store) :
  dispatch_effect P backendDesign st
    (fst (design_call P backendDesign input st))
    (snd (design_call P backendDesign input st)).
Proof.
  unfold design_call, generateDesignAction, bind.
  pose proof (server_action_cases (R := unit) P backendDesign
                "/generate-design" input st) as H.
  cbv zeta in H.
  destruct (server_action P
              (handleBackendRequest P backendDesign "/generate-design" input) st)
    as [[[out|error]|[]|e] st1]; simpl in *.
  - destruct H as [Hs [Ht [request [response [_ H]]]]].
    rewrite Hs. repeat split; auto. exists request, response. exact H.
  - destruct H as [Hs [Ht _]]. auto.
  - destruct H as [_ [_ []]].
  - destruct H as [_ [_ [_ H]]]. exact H.
Qed.

Variable r : StudioState.

Lemma generation_dispatch_effect (mode : string) (st : Store) :
  dispatch_effect P backendDesign st
    (fst (Studio.generation_dispatch P backendDesign r mode st))
    (snd (Studio.generation_dispatch P backendDesign r mode st)).
Proof.
  unfold Studio.generation_dispatch.
  destruct (String.eqb mode "text").
  { destruct (str_falsy (prompt r) || str_falsy (style r)).
    - simpl. right. eexists. reflexivity.
    - apply design_call_effect. }
  destruct (String.eqb mode "image").
  { destruct (Studio.no_file (sourceImageFile r) || str_falsy (prompt r)).
    - simpl. right. eexists. reflexivity.
    - unfold Studio.fileToDataUri.
      destruct (sourceImageFile r) as [file|]; [|reflexivity].
      unfold bind at 1. unfold await.
      destruct (readAsDataURL P file) as [baseImage|e]; [|reflexivity].
      apply design_call_effect. }
  destruct (String.eqb mode "floorplan").
  { destruct (Studio.no_file (floorPlanFile r) || str_falsy (style r)).
    - simpl. right. eexists. reflexivity.
    - unfold Studio.fileToDataUri.
      destruct (floorPlanFile r) as [file|]; [|reflexivity].
      unfold bind at 1. unfold await.
      destruct (readAsDataURL P file) as [floorPlan|e]; [|reflexivity].
      apply design_call_effect. }
  simpl. now left.
Qed.

(** Missing fields end the dispatch with a notice and a [return]. *)
Lemma missing_fields_return (mode : string) (st : Store) :
  missing_fields r mode ->
  exists description,
    Studio.generation_dispatch P backendDesign r mode st
    = (Return tt, with_toast st (Studio.destructive "Missing fields" description)).
Proof.
  unfold missing_fields, Studio.generation_dispatch.
  intros [[Hm H]|[[Hm H]|[Hm H]]]; subst mode; simpl.
  - assert (E : str_falsy (prompt r) || str_falsy (style r) = true).
    { apply orb_true_iff.
      destruct H as [H|H]; [left|right]; now apply str_falsy_true. }
    rewrite E. eexists. reflexivity.
  - assert (E : Studio.no_file (sourceImageFile r) || str_falsy (prompt r) = true).
    { apply orb_true_iff.
      destruct H as [H|H]; [left; now rewrite H|right; now apply str_falsy_true]. }
    rewrite E. eexists. reflexivity.
  - assert (E : Studio.no_file (floorPlanFile r) || str_falsy (style r) = true).
    { apply orb_true_iff.
      destruct H as [H|H]; [left; now rewrite H|right; now apply str_falsy_true]. }
    rewrite E. eexists. reflexivity.
Qed.

(** A file that cannot be read makes the dispatch throw. *)
Lemma unreadable_file_throws (mode : string) (st : Store) (file : File) (e : JsThrown) :
  (mode = "image" /\ sourceImageFile r = Some file /\ prompt r <> "") \/
  (mode = "floorplan" /\ floorPlanFile r = Some file /\ style r <> "") ->
  readAsDataURL P file = Rejected e ->
  Studio.generation_dispatch P backendDesign r mode st = (Throw e, st).
Proof.
  unfold Studio.generation_dispatch.
  intros [[Hm [Hf Hp]]|[Hm [Hf Hp]]] Hread; subst mode; simpl; rewrite Hf; simpl.
  - destruct (str_falsy (prompt r)) eqn:E;
      [apply str_falsy_true in E; contradiction|].
    unfold bind, await. rewrite Hread. reflexivity.
  - destruct (str_falsy (style r)) eqn:E;
      [apply str_falsy_true in E; contradiction|].
    unfold bind, await. rewrite Hread. reflexivity.
Qed.

(** [handleGenerationSubmit], by the completion of its dispatch. *)
Lemma handleGenerationSubmit_run {R} (mode : string) (st : Store) :
  @Studio.handleGenerationSubmit P backendDesign r R mode st =
  match Studio.generation_dispatch P backendDesign r mode (cleared st) with
  | (Normal (Success _), st1) =>
    (Normal tt,
     snd (Studio.resetInputs (R := unit)
            (snd (Studio.setSelectedImageIndex (R := unit) 0 st1))))
  | (Normal (Failure error), st1) =>
    (Normal tt,
     with_toast st1 (Studio.destructive "Generation Failed"
                       (str_or error "An unexpected error occurred.")))
  | (Return _, st1) => (Normal tt, st1)
  | (Throw e, st1) =>
    (Normal tt,
     with_toast st1 (Studio.destructive "Generation Failed"
                       (message_or "Please try again later." e)))
  end.
Proof.
  unfold Studio.handleGenerationSubmit, Studio.startTransition,
    Studio.handleGenerationSubmit_try, Studio.handleGenerationSubmit_catch.
  unfold call, try_catch, bind at 1.
  change (Studio.setGeneratedImages (R := unit) None st) with (Normal (R := unit) tt, cleared st).
  cbv iota beta. unfold bind at 1.
  destruct (Studio.generation_dispatch P backendDesign r mode (cleared st))
    as [[[out|error]|[]|e] st1]; reflexivity.
Qed.

End GenerationDispatch.

(** ** C9 *)

(** C9. [handleClear] sets the displayed image array to [null] and the
    selected index to 0, and leaves the prompt, the style, the active
    tab and the two selected files as they were; it shows no notice and
    sends no request. *)
Theorem clear_resets_images_only :
  forall (R : Type) (st : Store),
    let st' := snd (@Studio.handleClear R st) in
    fst (@Studio.handleClear R st) = Normal tt /\
    generatedImages (studio st') = None /\
    selectedImageIndex (studio st') = 0 /\
    prompt (studio st') = prompt (studio st) /\
    style (studio st') = style (studio st) /\
    activeTab (studio st') = activeTab (studio st) /\
    sourceImageFile (studio st') = sourceImageFile (studio st) /\
    floorPlanFile (studio st') = floorPlanFile (studio st) /\
    toasts st' = toasts st /\
    network st' = network st.
Proof.
  intros R st. cbv zeta. repeat split.
Qed.

(** ** C6 *)

(** C6. When the action called by a generation submission returns
    [{success: true, data: out}], the displayed image array becomes
    [out.data], the selected index 0 and the prompt empty; [out] is the
    JSON body the backend answered (with a 2xx status) to the one request
    of the submission; the other fields of the session are unchanged. *)
Theorem generation_success_shows_result :
  forall (P : Platform) (backendDesign : Fetch GenerateDesignOutput)
         (r : StudioState) (R : Type) (mode : string) (st : Store)
         (out : GenerateDesignOutput),
    generation_success P backendDesign r mode st out ->
    let st' := snd (@Studio.handleGenerationSubmit P backendDesign r R mode st) in
    generatedImages (studio st') = Some (gd_data out) /\
    selectedImageIndex (studio st') = 0 /\
    prompt (studio st') = "" /\
    (exists request response,
        dispatched st st' request /\
        backendDesign request = Resolved response /\
        ok response = true /\
        json response = Resolved out) /\
    style (studio st') = style (studio st) /\
    activeTab (studio st') = activeTab (studio st) /\
    sourceImageFile (studio st') = sourceImageFile (studio st) /\
    floorPlanFile (studio st') = floorPlanFile (studio st) /\
    toasts st' = toasts st.
Proof.
  intros P backendDesign r R mode st out [st1 H]. cbv zeta.
  rewrite handleGenerationSubmit_run, H.
  pose proof (generation_dispatch_effect P backendDesign r mode (cleared st)) as E.
  rewrite H in E. simpl in E.
  destruct E as [Hs [Ht [request [response Hd]]]].
  simpl. rewrite Hs. simpl. repeat split; auto.
  exists request, response. exact Hd.
Qed.

Lemma generation_success_shows_result_witness :
  let st' := snd (@Studio.handleGenerationSubmit Scenario.localPlatform
                    Scenario.twoImages Scenario.cozy unit "text" Scenario.storeCozy) in
  generatedImages (studio st')
  = Some ["data:image/png;base64,AAA"; "data:image/png;base64,BBB"] /\
  selectedImageIndex (studio st') = 0 /\
  prompt (studio st') = "".
Proof.
  assert (H : generation_success Scenario.localPlatform Scenario.twoImages
                Scenario.cozy "text" Scenario.storeCozy
                {| gd_data := ["data:image/png;base64,AAA";
                               "data:image/png;base64,BBB"];
                   gd_prompt := Some "Cozy Scandinavian living room";
                   gd_final_prompt := None;
                   gd_image_ids := None |}).
  { eexists. reflexivity. }
  destruct (generation_success_shows_result Scenario.localPlatform
              Scenario.twoImages Scenario.cozy unit "text" Scenario.storeCozy _ H)
    as [H1 [H2 [H3 _]]].
  cbv zeta. repeat split; assumption.
Defined.

(** ** C1 *)

(** C1, as stated, fails: with two images on display, a text-mode
    submission answered by HTTP 500 is a failed submission (the action
    returns an error result), and it leaves no image on display. *)
Lemma failed_generation_loses_images :
  generation_failure Scenario.localPlatform Scenario.overloaded
    Scenario.showingTwo "text" Scenario.storeShowingTwo
    "Backend request failed with status 500: model overloaded"
  /\
  generatedImages
    (studio (snd (@Studio.handleGenerationSubmit Scenario.localPlatform
                    Scenario.overloaded Scenario.showingTwo unit "text"
                    Scenario.storeShowingTwo)))
  <> generatedImages (studio Scenario.storeShowingTwo).
Proof.
  split.
  - eapply (returned_error _ _ _ _ _
              "Backend request failed with status 500: model overloaded").
    reflexivity.
  - simpl. discriminate.
Qed.

(** C1, amended. A generation submission that fails (the action returns
    an error result, an exception is thrown, or the file cannot be read)
    completes normally; it leaves the displayed image array [null], as
    the first statement of the submission set it, and every other field
    of the session as it was; and it adds exactly one notice, titled
    ['Generation Failed'], that carries the error's message. *)
Theorem failed_generation_clears_and_notifies :
  forall (P : Platform) (backendDesign : Fetch GenerateDesignOutput)
         (r : StudioState) (R : Type) (mode : string) (st : Store)
         (message : string),
    generation_failure P backendDesign r mode st message ->
    let st' := snd (@Studio.handleGenerationSubmit P backendDesign r R mode st) in
    fst (@Studio.handleGenerationSubmit P backendDesign r R mode st) = Normal tt /\
    studio st' = with_images None (studio st) /\
    toasts st'
    = (toasts st ++ [Studio.destructive "Generation Failed" message])%list.
Proof.
  intros P backendDesign r R mode st message Hfail. cbv zeta.
  rewrite handleGenerationSubmit_run.
  pose proof (generation_dispatch_effect P backendDesign r mode (cleared st)) as E.
  destruct Hfail as [error st1 H|e st1 H|file e Hmode Hread].
  - rewrite H in *. simpl in E. destruct E as [Hs Ht].
    simpl. rewrite Hs, Ht. repeat split.
  - rewrite H in *. simpl in E. subst st1. repeat split.
  - rewrite (unreadable_file_throws P backendDesign r mode (cleared st) file e
               Hmode Hread).
    repeat split.
Qed.

Lemma failed_generation_clears_and_notifies_witness :
  let run := @Studio.handleGenerationSubmit Scenario.localPlatform
               Scenario.overloaded Scenario.showingTwo unit "text"
               Scenario.storeShowingTwo in
  fst run = Normal tt /\
  studio (snd run) = with_images None Scenario.showingTwo /\
  toasts (snd run)
  = [Studio.destructive "Generation Failed"
       "Backend request failed with status 500: model overloaded"].
Proof.
  apply (failed_generation_clears_and_notifies Scenario.localPlatform
           Scenario.overloaded Scenario.showingTwo unit "text"
           Scenario.storeShowingTwo
           "Backend request failed with status 500: model overloaded").
  eapply (returned_error _ _ _ _ _
            "Backend request failed with status 500: model overloaded").
  reflexivity.
Defined.

(** ** C2 *)

(** C2, as stated, fails: with two images on display and no source file
    selected, an image-mode submission has a missing field, and it
    changes the session state. *)
Lemma missing_fields_submission_changes_state :
  missing_fields Scenario.showingTwo "image"
  /\
  studio (snd (@Studio.handleGenerationSubmit Scenario.localPlatform
                 Scenario.twoImages Scenario.showingTwo unit "image"
                 Scenario.storeShowingTwo))
  <> studio Scenario.storeShowingTwo.
Proof.
  split.
  - right. left. split; [reflexivity|now left].
  - simpl. discriminate.
Qed.

(** C2, amended. A generation submission with a missing required field
    (text: empty prompt or style; image: no source file or empty prompt;
    floorplan: no floor-plan file or empty style) sends no request and
    adds exactly one notice, titled ['Missing fields']; the displayed
    image array is [null] afterwards, as the first statement of the
    submission set it, and every other field of the session is
    unchanged. *)
Theorem missing_fields_short_circuit :
  forall (P : Platform) (backendDesign : Fetch GenerateDesignOutput)
         (r : StudioState) (R : Type) (mode : string) (st : Store),
    missing_fields r mode ->
    let st' := snd (@Studio.handleGenerationSubmit P backendDesign r R mode st) in
    fst (@Studio.handleGenerationSubmit P backendDesign r R mode st) = Normal tt /\
    nothing_dispatched st st' /\
    (exists description,
        toasts st'
        = (toasts st ++ [Studio.destructive "Missing fields" description])%list) /\
    studio st' = with_images None (studio st).
Proof.
  intros P backendDesign r R mode st Hmissing. cbv zeta.
  rewrite handleGenerationSubmit_run.
  destruct (missing_fields_return P backendDesign r mode (cleared st) Hmissing)
    as [description H].
  rewrite H. repeat split. exists description. reflexivity.
Qed.

Lemma missing_fields_short_circuit_witness :
  let run := @Studio.handleGenerationSubmit Scenario.localPlatform
               Scenario.twoImages Scenario.showingTwo unit "image"
               Scenario.storeShowingTwo in
  fst run = Normal tt /\
  nothing_dispatched Scenario.storeShowingTwo (snd run) /\
  (exists description,
      toasts (snd run) = [Studio.destructive "Missing fields" description]) /\
  studio (snd run) = with_images None Scenario.showingTwo.
Proof.
  apply (missing_fields_short_circuit Scenario.localPlatform Scenario.twoImages
           Scenario.showingTwo unit "image" Scenario.storeShowingTwo).
  right. left. split; [reflexivity|now left].
Defined.

(** ** [handleEditSubmit] *)

Section EditSubmit.
Variable P : Platform.
Variable backendChat : Fetch ChatOutput.
Variable r : StudioState.

(** [handleEditSubmit], by the completion of its action call. *)
Lemma handleEditSubmit_run {R} (editPrompt : string) (st : Store) :
  @Studio.handleEditSubmit P backendChat r R editPrompt st =
  if Studio.no_images (generatedImages r) then
    (Normal tt,
     with_toast st (Studio.destructive "No image to edit"
                      "Please generate an image first."))
  else
    match edit_call P backendChat editPrompt st with
    | (Normal (Success out), st1) =>
      (Normal tt,
       {| studio := with_edited (chat_data out) (studio st1);
          toasts := toasts st1; network := network st1 |})
    | (Normal (Failure error), st1) =>
      (Normal tt,
       with_toast st1 (Studio.destructive "Edit Failed"
                         (str_or error "An unexpected error occurred.")))
    | (Return _, st1) => (Normal tt, st1)
    | (Throw e, st1) =>
      (Normal tt,
       with_toast st1 (Studio.destructive "Edit Failed"
                         (message_or "Please try again later." e)))
    end.
Proof.
  unfold Studio.handleEditSubmit, Studio.startTransition,
    Studio.handleEditSubmit_try, Studio.handleEditSubmit_catch.
  destruct (Studio.no_images (generatedImages r)); [reflexivity|].
  cbv zeta. unfold call, try_catch, bind at 1.
  change (server_action P
            (Studio.editDesignAction P backendChat
               [("query", JsString (Studio.edit_query editPrompt))]) st)
    with (edit_call P backendChat editPrompt st).
  destruct (edit_call P backendChat editPrompt st)
    as [[[out|error]|[]|e] st1]; reflexivity.
Qed.

(** The action call of an edit, path by path. *)
Lemma edit_call_run (editPrompt : string) (st : Store) :
  edit_call P backendChat editPrompt st =
  match serverActionTransport P with
  | Some e => (Throw e, st)
  | None =>
    match JSON_stringify P (edit_payload editPrompt) with
    | Rejected e => (Normal (Failure (caught_message e)), st)
    | Resolved text =>
      match backendChat (edit_request P text) with
      | Rejected e =>
        (Normal (Failure (caught_message e)),
         with_request st (edit_request P text))
      | Resolved response =>
        (Normal (result_of_response response),
         with_request st (edit_request P text))
      end
    end
  end.
Proof.
  unfold edit_call, Studio.editDesignAction, chatAction.
  rewrite server_action_run. unfold request_of. simpl.
  destruct (serverActionTransport P); [reflexivity|].
  destruct (JSON_stringify P (edit_payload editPrompt)); reflexivity.
Qed.

Lemma edit_call_frame (editPrompt : string) (st : Store) :
  studio (snd (edit_call P backendChat editPrompt st)) = studio st /\
  toasts (snd (edit_call P backendChat editPrompt st)) = toasts st.
Proof.
  rewrite edit_call_run.
  destruct (serverActionTransport P); [auto|].
  destruct (JSON_stringify P (edit_payload editPrompt)) as [text|]; [|auto].
  destruct (backendChat (edit_request P text)); auto.
Qed.

End EditSubmit.

Lemma nothing_then_dispatched (st st' : Store) (request : Request) :
  nothing_dispatched st st' -> dispatched st st' request -> False.
Proof.
  unfold nothing_dispatched, dispatched. intros H1 H2.
  rewrite H1 in H2. rewrite <- (app_nil_r (network st)) in H2 at 1.
  apply app_inv_head in H2. discriminate.
Qed.

Lemma dispatched_unique (st st' : Store) (request request' : Request) :
  dispatched st st' request -> dispatched st st' request' -> request = request'.
Proof.
  unfold dispatched. intros H1 H2. rewrite H1 in H2.
  apply app_inv_head in H2. congruence.
Qed.

(** ** C7 *)

(** C7. An edit submission made while at least one image is displayed:
    when its action returns [{success: true, data: out}], the displayed
    image array becomes the one-element array [[out.data]] and the
    selected index 0, with no notice; when its action returns an error
    result or the call throws, the whole session state (the displayed
    array and the selected index included) is unchanged and one notice
    titled ['Edit Failed'] carries the error's message. *)
Theorem edit_replaces_images_or_keeps_state :
  forall (P : Platform) (backendChat : Fetch ChatOutput) (r : StudioState)
         (R : Type) (editPrompt : string) (st : Store)
         (image : string) (rest : list string),
    generatedImages r = Some (image :: rest) ->
    let st' := snd (@Studio.handleEditSubmit P backendChat r R editPrompt st) in
    (forall out st1,
        edit_call P backendChat editPrompt st = (Normal (Success out), st1) ->
        generatedImages (studio st') = Some [chat_data out] /\
        selectedImageIndex (studio st') = 0 /\
        toasts st' = toasts st) /\
    (forall error st1,
        edit_call P backendChat editPrompt st = (Normal (Failure error), st1) ->
        studio st' = studio st /\
        toasts st'
        = (toasts st ++ [Studio.destructive "Edit Failed"
                           (str_or error "An unexpected error occurred.")])%list) /\
    (forall e st1,
        edit_call P backendChat editPrompt st = (Throw e, st1) ->
        studio st' = studio st /\
        toasts st'
        = (toasts st ++ [Studio.destructive "Edit Failed"
                           (message_or "Please try again later." e)])%list).
Proof.
  intros P backendChat r R editPrompt st image rest Himages. cbv zeta.
  rewrite handleEditSubmit_run, Himages. simpl Studio.no_images. cbv iota.
  destruct (edit_call_frame P backendChat editPrompt st) as [Hs Ht].
  repeat split; intros; rewrite H in *; simpl in *; congruence.
Qed.

Lemma edit_replaces_images_or_keeps_state_witness :
  generatedImages
    (studio (snd (@Studio.handleEditSubmit Scenario.localPlatform
                    Scenario.chatReply Scenario.showingTwo unit
                    "make the sofa blue" Scenario.storeShowingTwo)))
  = Some ["Try a navy velvet sofa."]
  /\
  studio (snd (@Studio.handleEditSubmit Scenario.localPlatform
                 Scenario.overloaded Scenario.showingTwo unit
                 "make the sofa blue" Scenario.storeShowingTwo))
  = Scenario.showingTwo.
Proof.
  split.
  - destruct (edit_replaces_images_or_keeps_state Scenario.localPlatform
                Scenario.chatReply Scenario.showingTwo unit "make the sofa blue"
                Scenario.storeShowingTwo "data:image/png;base64,AAA"
                ["data:image/png;base64,BBB"] eq_refl) as [Hok _].
    apply (Hok {| chat_data := "Try a navy velvet sofa." |}
               (snd (edit_call Scenario.localPlatform Scenario.chatReply
                       "make the sofa blue" Scenario.storeShowingTwo))).
    reflexivity.
  - destruct (edit_replaces_images_or_keeps_state Scenario.localPlatform
                Scenario.overloaded Scenario.showingTwo unit "make the sofa blue"
                Scenario.storeShowingTwo "data:image/png;base64,AAA"
                ["data:image/png;base64,BBB"] eq_refl) as [_ [Herr _]].
    apply (Herr "Backend request failed with status 500: model overloaded"
                (snd (edit_call Scenario.localPlatform Scenario.overloaded
                        "make the sofa blue" Scenario.storeShowingTwo))).
    reflexivity.
Defined.

(** ** C10 *)

(** C10. An edit submission sends at most one request, and that request
    is a [POST] to [<BACKEND_URL>/chat] with a JSON content type whose
    body is [JSON.stringify] of the object whose only key, [query], holds
    ["Edit this image with the following prompt: "] followed by the edit
    prompt.  It is sent whenever an image is displayed, the action call
    goes through and the payload serialises.  The requests sent do not
    depend on the images of the session or on the selected index.  When
    the chat endpoint answers that request with a 2xx status and the JSON
    body [out], the one image stored is the text [out.data]. *)
Theorem edit_is_a_chat_query :
  forall (P : Platform) (backendChat : Fetch ChatOutput) (r : StudioState)
         (R : Type) (editPrompt : string) (st : Store),
    let payload : JsObject :=
      [("query",
        JsString ("Edit this image with the following prompt: " ++ editPrompt))] in
    let st' := snd (@Studio.handleEditSubmit P backendChat r R editPrompt st) in
    (nothing_dispatched st st' \/
     exists text,
       JSON_stringify P payload = Resolved text /\
       dispatched st st'
         {| url := BACKEND_URL P ++ "/chat";
            method := "POST";
            headers := [("Content-Type", "application/json")];
            body := TextBody text |}) /\
    (forall image rest text,
        generatedImages r = Some (image :: rest) ->
        serverActionTransport P = None ->
        JSON_stringify P payload = Resolved text ->
        dispatched st st'
          {| url := BACKEND_URL P ++ "/chat";
             method := "POST";
             headers := [("Content-Type", "application/json")];
             body := TextBody text |}) /\
    (forall r2,
        Studio.no_images (generatedImages r2) = Studio.no_images (generatedImages r) ->
        network (snd (@Studio.handleEditSubmit P backendChat r2 R editPrompt st))
        = network st') /\
    (forall request response out,
        dispatched st st' request ->
        backendChat request = Resolved response ->
        ok response = true ->
        json response = Resolved out ->
        generatedImages (studio st') = Some [chat_data out] /\
        selectedImageIndex (studio st') = 0).
Proof.
  intros P backendChat r R editPrompt st. cbv zeta.
  change [("query",
           JsString ("Edit this image with the following prompt: " ++ editPrompt))]
    with (edit_payload editPrompt).
  repeat apply conj.
  - rewrite handleEditSubmit_run, edit_call_run.
    destruct (Studio.no_images (generatedImages r)); [now left|].
    destruct (serverActionTransport P); [now left|].
    destruct (JSON_stringify P (edit_payload editPrompt)) as [text|]; [|now left].
    right. exists text. split; [reflexivity|].
    destruct (backendChat (edit_request P text)) as [response|];
      [destruct (result_of_response response)|]; reflexivity.
  - intros image rest text Himages Htransport Htext.
    rewrite handleEditSubmit_run, edit_call_run, Himages, Htransport, Htext.
    simpl Studio.no_images. cbv iota.
    destruct (backendChat (edit_request P text)) as [response|];
      [destruct (result_of_response response)|]; reflexivity.
  - intros r2 Hsame.
    rewrite !handleEditSubmit_run, Hsame.
    destruct (Studio.no_images (generatedImages r)); reflexivity.
  - intros request response out Hsent Hfetch Hok Hjson.
    revert Hsent. rewrite handleEditSubmit_run, edit_call_run.
    destruct (Studio.no_images (generatedImages r));
      [intros Hsent; exfalso; revert Hsent; now apply nothing_then_dispatched|].
    destruct (serverActionTransport P);
      [intros Hsent; exfalso; revert Hsent; now apply nothing_then_dispatched|].
    destruct (JSON_stringify P (edit_payload editPrompt)) as [text|];
      [|intros Hsent; exfalso; revert Hsent; now apply nothing_then_dispatched].
    intros Hsent.
    assert (E : request = edit_request P text).
    { eapply dispatched_unique; [exact Hsent|].
      destruct (backendChat (edit_request P text)) as [response'|];
        [destruct (result_of_response response')|]; reflexivity. }
    subst request. rewrite Hfetch. unfold result_of_response.
    rewrite Hok, Hjson. split; reflexivity.
Qed.

Lemma edit_is_a_chat_query_witness :
  let st' := snd (@Studio.handleEditSubmit Scenario.localPlatform
                    Scenario.chatReply Scenario.showingTwo unit
                    "make the sofa blue" Scenario.storeShowingTwo) in
  network st'
  = [{| url := "http://localhost:8001/chat";
        method := "POST";
        headers := [("Content-Type", "application/json")];
        body := TextBody
                  (String "{" (String "034" "query" ++ String "034" ":"
                     ++ String "034"
                          "Edit this image with the following prompt: make the sofa blue"
                     ++ String "034" "}")) |}]
  /\
  generatedImages (studio st') = Some ["Try a navy velvet sofa."].
Proof.
  destruct (edit_is_a_chat_query Scenario.localPlatform Scenario.chatReply
              Scenario.showingTwo unit "make the sofa blue"
              Scenario.storeShowingTwo) as [_ [Hsent [_ Hstored]]].
  cbv zeta. split.
  - apply (Hsent "data:image/png;base64,AAA" ["data:image/png;base64,BBB"]);
      reflexivity.
  - apply (Hstored
             (edit_request Scenario.localPlatform
                (String "{" (String "034" "query" ++ String "034" ":"
                   ++ String "034"
                        "Edit this image with the following prompt: make the sofa blue"
                   ++ String "034" "}")))
             {| status := 200; text := Resolved "{...}";
                json := Resolved {| chat_data := "Try a navy velvet sofa." |} |}
             {| chat_data := "Try a navy velvet sofa." |});
      reflexivity.
Defined.

(** ** The chat transcript *)

Section Chat.
Import DesignChat.
Variable trim : string -> string.

Lemma step_pending_consistent (s : ChatState) (e : Event) :
  pending_consistent s -> pending_consistent (step trim s e).
Proof.
  unfold pending_consistent. intros H.
  destruct e as [value| |o]; simpl.
  - exact H.
  - unfold handleSubmit.
    destruct (str_falsy (trim (input s)) || isPending s); [exact H|].
    simpl. split; reflexivity.
  - unfold resume.
    destruct (transition s) as [c|] eqn:E.
    + destruct o as [[data|error]|]; exact I.
    + rewrite E. exact I.
Qed.

Lemma reachable_pending_consistent (s : ChatState) :
  reachable trim s -> pending_consistent s.
Proof.
  induction 1 as [|s e _ IH].
  - exact I.
  - now apply step_pending_consistent.
Qed.

End Chat.

(** ** C3 *)

(** C3, as stated, fails: after the user submitted [hi] the transcript
    holds that message; when the reply is an error, the next transcript
    is not the previous one followed by anything (it is empty). *)
Lemma chat_error_drops_message :
  DesignChat.reachable Scenario.asciiTrim Scenario.asked
  /\
  DesignChat.messages Scenario.asked
  = [{| DesignChat.role := DesignChat.user; DesignChat.content := "hi" |}]
  /\
  ~ (exists suffix,
        DesignChat.messages
          (DesignChat.step Scenario.asciiTrim Scenario.asked
             (DesignChat.Settled (Resolved (Failure "model overloaded"))))
        = (DesignChat.messages Scenario.asked ++ suffix)%list).
Proof.
  split; [|split].
  - unfold Scenario.asked. repeat apply DesignChat.reachable_step.
    apply DesignChat.reachable_init.
  - reflexivity.
  - intros [suffix H]. simpl in H. discriminate.
Qed.

(** C3, amended. From every state the component can be in, each step
    does the following to the transcript.  Typing leaves it unchanged.
    Submitting leaves it unchanged when the input is blank or a reply is
    pending, and otherwise appends one message, the user's, holding the
    input as typed.  When the pending reply settles with a success, one
    message is appended, the assistant's, holding the reply; when it
    settles with an error result, the transcript captured by the
    submission is restored, which removes the last message, the user's
    query that the submission had appended; when the call rejects, or
    when nothing is pending, the transcript is unchanged. *)
Theorem chat_transcript_steps :
  forall (trim : string -> string) (s : DesignChat.ChatState) (e : DesignChat.Event),
    DesignChat.reachable trim s ->
    let s' := DesignChat.step trim s e in
    match e with
    | DesignChat.Change _ => DesignChat.messages s' = DesignChat.messages s
    | DesignChat.Submit =>
      if str_falsy (trim (DesignChat.input s)) || DesignChat.isPending s then
        DesignChat.messages s' = DesignChat.messages s
      else
        DesignChat.messages s'
        = (DesignChat.messages s ++
           [{| DesignChat.role := DesignChat.user;
               DesignChat.content := DesignChat.input s |}])%list
    | DesignChat.Settled o =>
      match DesignChat.transition s with
      | None => DesignChat.messages s' = DesignChat.messages s
      | Some c =>
        match o with
        | Resolved (Success reply) =>
          DesignChat.messages s'
          = (DesignChat.messages s ++
             [{| DesignChat.role := DesignChat.assistant;
                 DesignChat.content := chat_data reply |}])%list
        | Resolved (Failure _) =>
          DesignChat.messages s
          = (DesignChat.messages s' ++
             [{| DesignChat.role := DesignChat.user;
                 DesignChat.content := DesignChat.c_query c |}])%list
        | Rejected _ => DesignChat.messages s' = DesignChat.messages s
        end
      end
    end.
Proof.
  intros trim s e Hreach. cbv zeta.
  apply reachable_pending_consistent in Hreach. unfold pending_consistent in Hreach.
  destruct e as [value| |o]; simpl.
  - reflexivity.
  - unfold DesignChat.handleSubmit.
    destruct (str_falsy (trim (DesignChat.input s)) || DesignChat.isPending s);
      reflexivity.
  - unfold DesignChat.resume.
    destruct (DesignChat.transition s) as [c|]; [|reflexivity].
    destruct Hreach as [Hm Hc].
    destruct o as [[reply|error]|e]; simpl.
    + now rewrite Hm.
    + now rewrite Hm.
    + reflexivity.
Qed.

Lemma chat_transcript_steps_witness :
  DesignChat.messages Scenario.asked
  = (DesignChat.messages
       (DesignChat.step Scenario.asciiTrim Scenario.asked
          (DesignChat.Settled (Resolved (Failure "model overloaded"))))
     ++ [{| DesignChat.role := DesignChat.user;
            DesignChat.content := "hi" |}])%list
  /\
  DesignChat.messages
    (DesignChat.step Scenario.asciiTrim Scenario.asked
       (DesignChat.Settled
          (Resolved (Success {| chat_data := "Try a navy velvet sofa." |}))))
  = (DesignChat.messages Scenario.asked
     ++ [{| DesignChat.role := DesignChat.assistant;
            DesignChat.content := "Try a navy velvet sofa." |}])%list.
Proof.
  assert (Hreach : DesignChat.reachable Scenario.asciiTrim Scenario.asked).
  { unfold Scenario.asked.
    apply DesignChat.reachable_step. apply DesignChat.reachable_step.
    apply DesignChat.reachable_init. }
  split.
  - exact (chat_transcript_steps Scenario.asciiTrim Scenario.asked
             (DesignChat.Settled (Resolved (Failure "model overloaded"))) Hreach).
  - exact (chat_transcript_steps Scenario.asciiTrim Scenario.asked
             (DesignChat.Settled
                (Resolved (Success {| chat_data := "Try a navy velvet sofa." |})))
             Hreach).
Defined.


(* ===================================================================== *)
(** * Further properties of [python-actions.ts]                           *)
(* ===================================================================== *)

(** X1. [handleBackendRequest] returns [{success: true, data: out}]
    exactly when the request could be built, [fetch] resolved with a
    2xx response, and the JSON body of that response parsed as [out]. *)
Theorem backend_success_iff :
  forall (U : Type) (P : Platform) (fetch : Fetch U) (R : Type)
         (endpoint : string) (input : JsObject) (st : Store) (out : U),
    fst (@handleBackendRequest U P fetch R endpoint input st) = Normal (Success out)
    <->
    exists request response,
      request_of P endpoint input = Resolved request /\
      fetch request = Resolved response /\
      ok response = true /\
      json response = Resolved out.
Proof.
  intros U P fetch R endpoint input st out.
  rewrite handleBackendRequest_run. split.
  - destruct (request_of P endpoint input) as [request|e]; [|discriminate].
    destruct (fetch request) as [response|e] eqn:Hf; [|discriminate].
    simpl. unfold result_of_response.
    destruct (ok response) eqn:Hok.
    + destruct (json response) as [result|e] eqn:Hj; [|discriminate].
      intros H. inversion H; subst. exists request, response. auto.
    + destruct (text response); discriminate.
  - intros [request [response [Hr [Hf [Hok Hj]]]]].
    rewrite Hr, Hf. simpl. unfold result_of_response. now rewrite Hok, Hj.
Qed.

(** X2. When the response has an error status and its body cannot be read
    either, the failure carries the message of the read error (or the
    generic one), not the status. *)
Theorem unreadable_error_body :
  forall (U : Type) (P : Platform) (fetch : Fetch U) (R : Type)
         (endpoint : string) (input : JsObject) (st : Store)
         (request : Request) (response : Response U) (e : JsThrown),
    request_of P endpoint input = Resolved request ->
    fetch request = Resolved response ->
    ok response = false ->
    text response = Rejected e ->
    fst (@handleBackendRequest U P fetch R endpoint input st)
    = Normal (Failure (message_or "An unknown error occurred." e)).
Proof.
  intros U P fetch R endpoint input st request response e Hr Hf Hok Ht.
  rewrite handleBackendRequest_run, Hr, Hf. simpl.
  unfold result_of_response. now rewrite Hok, Ht.
Qed.

Lemma unreadable_error_body_witness :
  fst (@handleBackendRequest ChatOutput Scenario.localPlatform Scenario2.brokenBody
         unit "/chat" [("query", JsString "hi")] Scenario.emptyStore)
  = Normal (Failure "terminated").
Proof.
  apply (unreadable_error_body ChatOutput Scenario.localPlatform
           Scenario2.brokenBody unit "/chat" [("query", JsString "hi")]
           Scenario.emptyStore
           (json_request Scenario.localPlatform "/chat"
              (String "{" (String "034" "query" ++ String "034" ":"
                           ++ String "034" "hi" ++ String "034" "}")))
           {| status := 502; text := Rejected (JsError "terminated");
              json := Rejected (JsError "terminated") |}
           (JsError "terminated")); reflexivity.
Defined.

(** X3. One call hands at most one request to the transport, whatever
    comes back (a rejected [fetch] or an error status is not retried).
    For [/generate-design] it always hands exactly one; for another
    endpoint it hands one when [JSON.stringify] returns, and none, with
    the exception's message as the failure, when [JSON.stringify]
    throws. *)
Theorem at_most_one_request :
  forall (U : Type) (P : Platform) (fetch : Fetch U) (R : Type)
         (endpoint : string) (input : JsObject) (st : Store),
    let run := @handleBackendRequest U P fetch R endpoint input st in
    (nothing_dispatched st (snd run) \/ exists request, dispatched st (snd run) request) /\
    (endpoint = "/generate-design" -> exists request, dispatched st (snd run) request) /\
    (forall text, JSON_stringify P input = Resolved text ->
                  exists request, dispatched st (snd run) request) /\
    (forall e, endpoint <> "/generate-design" ->
               JSON_stringify P input = Rejected e ->
               nothing_dispatched st (snd run) /\
               fst run = Normal (Failure (message_or "An unknown error occurred." e))).
Proof.
  intros U P fetch R endpoint input st. cbv zeta.
  rewrite handleBackendRequest_run. unfold request_of.
  assert (Hsent : forall request,
             exists request',
               dispatched st
                 (snd match fetch request with
                      | Resolved response =>
                        (Normal (R := R) (result_of_response response),
                         with_request st request)
                      | Rejected e =>
                        (Normal (Failure (caught_message e)), with_request st request)
                      end) request').
  { intros request. exists request. destruct (fetch request); reflexivity. }
  repeat apply conj.
  - destruct (String.eqb endpoint "/generate-design"); [right; apply Hsent|].
    destruct (JSON_stringify P input); [right; apply Hsent|now left].
  - intros ->. simpl. apply Hsent.
  - intros text Htext. rewrite Htext.
    destruct (String.eqb endpoint "/generate-design"); apply Hsent.
  - intros e Hne He.
    destruct (String.eqb_spec endpoint "/generate-design"); [contradiction|].
    rewrite He. split; reflexivity.
Qed.

Lemma at_most_one_request_witness :
  let run := @handleBackendRequest ChatOutput Scenario2.cyclicPlatform
               Scenario.chatReply unit "/chat" [("query", JsString "hi")]
               Scenario.emptyStore in
  nothing_dispatched Scenario.emptyStore (snd run) /\
  fst run = Normal (Failure "Converting circular structure to JSON").
Proof.
  destruct (at_most_one_request ChatOutput Scenario2.cyclicPlatform
              Scenario.chatReply unit "/chat" [("query", JsString "hi")]
              Scenario.emptyStore) as [_ [_ [_ H]]].
  apply (H (JsError "Converting circular structure to JSON")).
  - discriminate.
  - reflexivity.
Defined.

(** X4. Nothing is cached or de-duplicated: two calls in a row with the
    same endpoint and input hand the same request to the transport
    twice. *)
Theorem no_deduplication :
  forall (U : Type) (P : Platform) (fetch : Fetch U)
         (endpoint : string) (input : JsObject) (st : Store) (request : Request),
    request_of P endpoint input = Resolved request ->
    network (snd (call_twice P fetch endpoint input st))
    = (network st ++ [request; request])%list.
Proof.
  intros U P fetch endpoint input st request Hr.
  unfold call_twice, bind. rewrite handleBackendRequest_run, Hr.
  destruct (fetch request) as [response|e] eqn:Hf;
    rewrite handleBackendRequest_run, Hr, Hf; simpl;
    rewrite <- app_assoc; reflexivity.
Qed.

Lemma no_deduplication_witness :
  length (network (snd (call_twice Scenario.localPlatform Scenario.twoImages
                          "/generate-design" Scenario.sparsePayload
                          Scenario.emptyStore))) = 2.
Proof.
  rewrite (no_deduplication GenerateDesignOutput Scenario.localPlatform
             Scenario.twoImages "/generate-design" Scenario.sparsePayload
             Scenario.emptyStore
             (form_request Scenario.localPlatform "/generate-design"
                Scenario.sparsePayload) eq_refl).
  reflexivity.
Defined.

Lemma handleBackendRequest_posts_to {U : Type} (endpoint : string) :
  posts_to endpoint (String.eqb endpoint "/generate-design")
    (fun P R fetch input => @handleBackendRequest U P fetch R endpoint input).
Proof.
  intros P R fetch input st request Hsent.
  apply dispatched_request_of in Hsent. unfold request_of in Hsent.
  destruct (String.eqb endpoint "/generate-design").
  - inversion Hsent; subst. simpl. repeat split. eexists. reflexivity.
  - destruct (JSON_stringify P input) as [text|]; [|discriminate].
    inversion Hsent; subst. simpl. repeat split. eexists. reflexivity.
Qed.

(** X5. The endpoint of each exported action: whatever request one of
    them sends is a [POST] to [<BACKEND_URL>] followed by its own path;
    only [generateDesignAction] sends a [FormData] (with no header of its
    own), the ten others send a string with the JSON content type. *)
Theorem endpoint_table :
  posts_to "/generate-design" true (@generateDesignAction) /\
  posts_to "/chat" false (@chatAction) /\
  posts_to "/suggest-edits" false (@suggestEditsAction) /\
  posts_to "/generate-new-prompt" false (@generatePromptAction) /\
  posts_to "/flow/generate-image-prompt" false (@flowGenerateImagePrompt) /\
  posts_to "/flow/generate-interior-design-from-prompt" false
    (@flowGenerateInteriorDesign) /\
  posts_to "/flow/edit-interior-design-with-text" false (@flowEditInteriorDesign) /\
  posts_to "/flow/get-design-suggestions-from-chat" false
    (@flowGetDesignSuggestions) /\
  posts_to "/flow/summarize-design-styles" false (@flowSummarizeDesignStyles) /\
  posts_to "/flow/suggest-image-edits" false (@flowSuggestImageEdits) /\
  posts_to "/flow/generate-image-from-cad-floor-plan" false
    (@flowGenerateImageFromCadFloorPlan).
Proof.
  repeat apply conj; exact (handleBackendRequest_posts_to _).
Qed.

Lemma endpoint_table_witness :
  let request :=
    json_request Scenario.localPlatform "/suggest-edits"
      (String "{" (String "034" "designStyle" ++ String "034" ":"
                   ++ String "034" "Modern" ++ String "034" "}")) in
  url request = "http://localhost:8001/suggest-edits" /\
  method request = "POST" /\
  headers request = [("Content-Type", "application/json")] /\
  exists text, body request = TextBody text.
Proof.
  destruct endpoint_table as [_ [_ [Hsuggest _]]].
  apply (Hsuggest Scenario.localPlatform unit Scenario2.brokenBody
           [("designStyle", JsString "Modern")] Scenario.emptyStore).
  reflexivity.
Defined.

(* ===================================================================== *)
(** * Properties of [actions.ts]                                          *)
(* ===================================================================== *)

Lemma handleAction_returns_tagged {T U : Type} (flow : T -> Outcome U) :
  returns_tagged flow (fun R input => @Actions.handleAction T U R input flow).
Proof.
  intros R input st.
  unfold Actions.handleAction, Actions.handleAction_try, Actions.handleAction_catch.
  monad_unfold. unfold caught_message.
  destruct (flow input); reflexivity.
Qed.

(** X6. Each of the seven actions of [actions.ts] completes normally for
    every input and every behaviour of its flow, and leaves the store as
    it was: the flow's value comes back as [{success: true, data}], what
    the flow rejects with comes back as [{success: false, error}] with
    the exception's message, or ['An unknown error occurred.'] when it is
    not an [Error]. *)
Theorem legacy_actions_return_tagged :
  forall (I1 O1 I2 O2 I3 O3 I4 O4 I5 O5 I6 O6 I7 O7 : Type)
         (flow1 : I1 -> Outcome O1) (flow2 : I2 -> Outcome O2)
         (flow3 : I3 -> Outcome O3) (flow4 : I4 -> Outcome O4)
         (flow5 : I5 -> Outcome O5) (flow6 : I6 -> Outcome O6)
         (flow7 : I7 -> Outcome O7),
    returns_tagged flow1 (@Actions.generateDesignAction I1 O1 flow1) /\
    returns_tagged flow2 (@Actions.editDesignAction I2 O2 flow2) /\
    returns_tagged flow3 (@Actions.generateFromFloorPlanAction I3 O3 flow3) /\
    returns_tagged flow4 (@Actions.getChatSuggestionAction I4 O4 flow4) /\
    returns_tagged flow5 (@Actions.summarizeStylesAction I5 O5 flow5) /\
    returns_tagged flow6 (@Actions.generatePromptAction I6 O6 flow6) /\
    returns_tagged flow7 (@Actions.suggestEditsAction I7 O7 flow7).
Proof.
  intros. repeat apply conj; exact (handleAction_returns_tagged _).
Qed.

Lemma legacy_actions_return_tagged_witness :
  @Actions.generatePromptAction nat nat Scenario2.doubling unit 21 Scenario.emptyStore
  = (Normal (Success 42), Scenario.emptyStore)
  /\
  @Actions.suggestEditsAction nat nat Scenario2.failing unit 21 Scenario.emptyStore
  = (Normal (Failure "An unknown error occurred."), Scenario.emptyStore).
Proof.
  destruct (legacy_actions_return_tagged
              nat nat nat nat nat nat nat nat nat nat nat nat nat nat
              Scenario2.doubling Scenario2.doubling Scenario2.doubling
              Scenario2.doubling Scenario2.doubling Scenario2.doubling
              Scenario2.failing) as [_ [_ [_ [_ [_ [Hprompt Hsuggest]]]]]].
  split.
  - apply (Hprompt unit 21 Scenario.emptyStore).
  - apply (Hsuggest unit 21 Scenario.emptyStore).
Defined.

(* ===================================================================== *)
(** * Further properties of [studio.tsx]                                  *)
(* ===================================================================== *)

Section GenerationRequests.
Variable P : Platform.
Variable backendDesign : Fetch GenerateDesignOutput.

(** The action call of a generation submission, path by path. *)
Lemma design_call_run (input : JsObject) (st : Store) :
  design_call P backendDesign input st =
  match serverActionTransport P with
  | Some e => (Throw e, st)
  | None =>
    let request := form_request P "/generate-design" input in
    match backendDesign request with
    | Rejected e =>
      (Normal (Failure (caught_message e)), with_request st request)
    | Resolved response =>
      match result_of_response response with
      | Success out =>
        (Normal (Success out),
         {| studio := with_images (Some (gd_data out)) (studio st);
            toasts := toasts st;
            network := (network st ++ [request])%list |})
      | Failure error => (Normal (Failure error), with_request st request)
      end
    end
  end.
Proof.
  unfold design_call, generateDesignAction, bind.
  rewrite server_action_run. unfold request_of. simpl.
  destruct (serverActionTransport P); [reflexivity|].
  destruct (backendDesign (form_request P "/generate-design" input)) as [response|e];
    [|reflexivity].
  destruct (result_of_response response); reflexivity.
Qed.

Lemma design_call_sends (input : JsObject) (st : Store) :
  serverActionTransport P = None ->
  network (snd (design_call P backendDesign input st))
  = (network st ++ [form_request P "/generate-design" input])%list.
Proof.
  intros Ht. rewrite design_call_run, Ht. cbv zeta.
  destruct (backendDesign (form_request P "/generate-design" input)) as [response|e];
    [|reflexivity].
  destruct (result_of_response response); reflexivity.
Qed.


Variable r : StudioState.

(** The requests of a submission are those of its mode dispatch. *)
Lemma handleGenerationSubmit_network {R} (mode : string) (st : Store) :
  network (snd (@Studio.handleGenerationSubmit P backendDesign r R mode st))
  = network (snd (Studio.generation_dispatch P backendDesign r mode (cleared st))).
Proof.
  rewrite handleGenerationSubmit_run.
  destruct (Studio.generation_dispatch P backendDesign r mode (cleared st))
    as [[[out|error]|[]|e] st1]; reflexivity.
Qed.

(** The notices of a submission: those of its mode dispatch, and one
    more when it fails. *)
Lemma handleGenerationSubmit_toasts {R} (mode : string) (st : Store) :
  let run := Studio.generation_dispatch P backendDesign r mode (cleared st) in
  toasts (snd (@Studio.handleGenerationSubmit P backendDesign r R mode st))
  = match fst run with
    | Normal (Success _) | Return _ => toasts (snd run)
    | Normal (Failure error) =>
      (toasts (snd run)
       ++ [Studio.destructive "Generation Failed"
             (str_or error "An unexpected error occurred.")])%list
    | Throw e =>
      (toasts (snd run)
       ++ [Studio.destructive "Generation Failed"
             (message_or "Please try again later." e)])%list
    end.
Proof.
  cbv zeta. rewrite handleGenerationSubmit_run.
  destruct (Studio.generation_dispatch P backendDesign r mode (cleared st))
    as [[[out|error]|[]|e] st1]; reflexivity.
Qed.

End GenerationRequests.

(** X7. A submission whose mode is none of [text], [image], [floorplan]
    clears the displayed images and does nothing else: no notice, no
    request, every other field unchanged. *)
Theorem unknown_mode_only_clears :
  forall (P : Platform) (backendDesign : Fetch GenerateDesignOutput)
         (r : StudioState) (R : Type) (mode : string) (st : Store),
    mode <> "text" -> mode <> "image" -> mode <> "floorplan" ->
    @Studio.handleGenerationSubmit P backendDesign r R mode st
    = (Normal tt, cleared st).
Proof.
  intros P backendDesign r R mode st H1 H2 H3.
  rewrite handleGenerationSubmit_run. unfold Studio.generation_dispatch.
  destruct (String.eqb_spec mode "text"); [contradiction|].
  destruct (String.eqb_spec mode "image"); [contradiction|].
  destruct (String.eqb_spec mode "floorplan"); [contradiction|].
  reflexivity.
Qed.

Lemma unknown_mode_only_clears_witness :
  @Studio.handleGenerationSubmit Scenario.localPlatform Scenario.twoImages
    Scenario.showingTwo unit "video" Scenario.storeShowingTwo
  = (Normal tt, cleared Scenario.storeShowingTwo).
Proof.
  apply (unknown_mode_only_clears Scenario.localPlatform Scenario.twoImages
           Scenario.showingTwo unit "video" Scenario.storeShowingTwo);
    discriminate.
Defined.

(** X8. The request of a generation submission, by mode, when the action
    call goes through.  Text mode with a prompt and a style: the form
    fields are [prompt], [style] and [mode = text], and no image field.
    Image mode with a file that reads as [uri] and a prompt: [prompt],
    [style] (sent even when empty), [mode = image] and [baseImage = uri].
    Floor-plan mode with a file that reads as [uri] and a style: [prompt]
    (sent even when empty), [style], [mode = floorplan] and
    [floorPlan = uri]. *)
Theorem generation_request_by_mode :
  forall (P : Platform) (backendDesign : Fetch GenerateDesignOutput)
         (r : StudioState) (R : Type) (st : Store),
    serverActionTransport P = None ->
    (prompt r <> "" -> style r <> "" ->
     dispatched st
       (snd (@Studio.handleGenerationSubmit P backendDesign r R "text" st))
       (design_request P
          [("prompt", JsString (prompt r)); ("style", JsString (style r));
           ("mode", JsString "text")])) /\
    (forall file uri,
        sourceImageFile r = Some file -> prompt r <> "" ->
        readAsDataURL P file = Resolved uri ->
        dispatched st
          (snd (@Studio.handleGenerationSubmit P backendDesign r R "image" st))
          (design_request P
             [("prompt", JsString (prompt r)); ("style", JsString (style r));
              ("mode", JsString "image"); ("baseImage", JsString uri)])) /\
    (forall file uri,
        floorPlanFile r = Some file -> style r <> "" ->
        readAsDataURL P file = Resolved uri ->
        dispatched st
          (snd (@Studio.handleGenerationSubmit P backendDesign r R "floorplan" st))
          (design_request P
             [("prompt", JsString (prompt r)); ("style", JsString (style r));
              ("mode", JsString "floorplan"); ("floorPlan", JsString uri)])).
Proof.
  intros P backendDesign r R st Ht.
  assert (Hno : forall s, s <> "" -> str_falsy s = false).
  { intros s Hs. destruct (str_falsy s) eqn:E; [|reflexivity].
    apply str_falsy_true in E. contradiction. }
  unfold dispatched. repeat apply conj.
  - intros Hp Hs. rewrite handleGenerationSubmit_network.
    unfold Studio.generation_dispatch. simpl. rewrite (Hno _ Hp), (Hno _ Hs). simpl.
    exact (design_call_sends P backendDesign
             [("prompt", JsString (prompt r)); ("style", JsString (style r));
              ("mode", JsString "text")] (cleared st) Ht).
  - intros file uri Hf Hp Hread. rewrite handleGenerationSubmit_network.
    unfold Studio.generation_dispatch. simpl. rewrite Hf, (Hno _ Hp). simpl.
    unfold bind at 1. unfold await. rewrite Hread. unfold ret.
    exact (design_call_sends P backendDesign
             [("prompt", JsString (prompt r)); ("style", JsString (style r));
              ("mode", JsString "image"); ("baseImage", JsString uri)]
             (cleared st) Ht).
  - intros file uri Hf Hs Hread. rewrite handleGenerationSubmit_network.
    unfold Studio.generation_dispatch. simpl. rewrite Hf, (Hno _ Hs). simpl.
    unfold bind at 1. unfold await. rewrite Hread. unfold ret.
    exact (design_call_sends P backendDesign
             [("prompt", JsString (prompt r)); ("style", JsString (style r));
              ("mode", JsString "floorplan"); ("floorPlan", JsString uri)]
             (cleared st) Ht).
Qed.

Lemma generation_request_by_mode_witness :
  network (snd (@Studio.handleGenerationSubmit Scenario.localPlatform
                  Scenario.overloaded Scenario2.staging unit "image"
                  Scenario2.storeStaging))
  = [design_request Scenario.localPlatform
       [("prompt", JsString "add a red sofa"); ("style", JsString "");
        ("mode", JsString "image");
        ("baseImage", JsString "data:image/png;base64,sofa.png")]].
Proof.
  destruct (generation_request_by_mode Scenario.localPlatform Scenario.overloaded
              Scenario2.staging unit Scenario2.storeStaging eq_refl)
    as [_ [Himage _]].
  apply (Himage Scenario2.sofa "data:image/png;base64,sofa.png").
  - reflexivity.
  - discriminate.
  - reflexivity.
Defined.

Section CompleteForms.
Variable P : Platform.
Variable backendDesign : Fetch GenerateDesignOutput.
Variable r : StudioState.

Lemma nonempty_not_falsy (s : string) : s <> "" -> str_falsy s = false.
Proof.
  intros Hs. destruct (str_falsy s) eqn:E; [|reflexivity].
  apply str_falsy_true in E. contradiction.
Qed.

(** With the fields of the mode present, the dispatch is the action call
    on the payload of the mode, unless the file cannot be read. *)
Lemma dispatch_when_complete (mode : string) (st : Store) :
  In mode GenerationPanel.tabs -> ~ missing_fields r mode ->
  (exists input,
      Studio.generation_dispatch P backendDesign r mode st
      = design_call P backendDesign input st) \/
  (exists e, Studio.generation_dispatch P backendDesign r mode st = (Throw e, st)).
Proof.
  unfold missing_fields, Studio.generation_dispatch.
  intros [Hm|[Hm|[Hm|[]]]] Hfields; subst mode; simpl.
  - assert (Hp : prompt r <> "") by (intros E; apply Hfields; auto).
    assert (Hs : style r <> "") by (intros E; apply Hfields; auto).
    rewrite (nonempty_not_falsy _ Hp), (nonempty_not_falsy _ Hs). simpl.
    left. eexists. reflexivity.
  - assert (Hp : prompt r <> "") by (intros E; apply Hfields; auto).
    destruct (sourceImageFile r) as [file|] eqn:Hf;
      [|exfalso; apply Hfields; auto].
    rewrite (nonempty_not_falsy _ Hp). simpl.
    unfold bind at 1. unfold await.
    destruct (readAsDataURL P file) as [uri|e].
    + left. eexists. reflexivity.
    + right. eexists. reflexivity.
  - assert (Hs : style r <> "") by (intros E; apply Hfields; auto 6).
    destruct (floorPlanFile r) as [file|] eqn:Hf;
      [|exfalso; apply Hfields; auto 6].
    rewrite (nonempty_not_falsy _ Hs). simpl.
    unfold bind at 1. unfold await.
    destruct (readAsDataURL P file) as [uri|e].
    + left. eexists. reflexivity.
    + right. eexists. reflexivity.
Qed.

(** The action call shows no notice and does not [return]. *)
Lemma design_call_quiet (input : JsObject) (st : Store) :
  toasts (snd (design_call P backendDesign input st)) = toasts st /\
  forall x, fst (design_call P backendDesign input st) <> Return x.
Proof.
  rewrite design_call_run.
  destruct (serverActionTransport P); [split; [reflexivity|discriminate]|].
  cbv zeta.
  destruct (backendDesign (form_request P "/generate-design" input)) as [response|e];
    [|split; [reflexivity|discriminate]].
  destruct (result_of_response response); split; try reflexivity; discriminate.
Qed.

Lemma dispatch_quiet_when_complete (mode : string) (st : Store) :
  In mode GenerationPanel.tabs -> ~ missing_fields r mode ->
  toasts (snd (Studio.generation_dispatch P backendDesign r mode st)) = toasts st /\
  forall x, fst (Studio.generation_dispatch P backendDesign r mode st) <> Return x.
Proof.
  intros Hmode Hfields.
  destruct (dispatch_when_complete mode st Hmode Hfields) as [[input H]|[e H]];
    rewrite H.
  - apply design_call_quiet.
  - split; [reflexivity|discriminate].
Qed.

(** The only notice a submission with its fields present can add. *)
Lemma complete_submission_toasts {R} (mode : string) (st : Store) :
  In mode GenerationPanel.tabs -> ~ missing_fields r mode ->
  let st' := snd (@Studio.handleGenerationSubmit P backendDesign r R mode st) in
  toasts st' = toasts st \/
  exists message,
    toasts st' = (toasts st ++ [Studio.destructive "Generation Failed" message])%list.
Proof.
  intros Hmode Hfields. cbv zeta.
  rewrite handleGenerationSubmit_toasts. cbv zeta.
  destruct (dispatch_quiet_when_complete mode (cleared st) Hmode Hfields) as [Ht Hr].
  rewrite Ht.
  destruct (fst (Studio.generation_dispatch P backendDesign r mode (cleared st)))
    as [[out|error]|x|e].
  - now left.
  - right. eexists. reflexivity.
  - exfalso. now apply (Hr x).
  - right. eexists. reflexivity.
Qed.

End CompleteForms.

Section EnabledButton.
Variable trim : string -> string.
Hypothesis trim_empty : trim "" = "".

Lemma positive_length (s : string) : Nat.ltb 0 (String.length s) = true -> s <> "".
Proof. intros H E. subst s. discriminate. Qed.

Lemma positive_trimmed_length (s : string) :
  Nat.ltb 0 (String.length (trim s)) = true -> s <> "".
Proof.
  intros H E. subst s. rewrite trim_empty in H. discriminate.
Qed.

(** What an enabled [Generate] button says about the form. *)
Lemma canSubmit_fields (isLoading : bool) (r : StudioState) (mode : string) :
  GenerationPanel.canSubmit trim isLoading r mode = true ->
  isLoading = false /\ In mode GenerationPanel.tabs /\ ~ missing_fields r mode.
Proof.
  unfold GenerationPanel.canSubmit, missing_fields.
  destruct isLoading; [discriminate|].
  destruct (String.eqb_spec mode "text") as [->|H1].
  { intros H. apply andb_prop in H. destruct H as [Hp Hs].
    apply positive_trimmed_length in Hp. apply positive_length in Hs.
    repeat split; [simpl; auto|].
    intros [[_ [E|E]]|[[E _]|[E _]]]; try discriminate; contradiction. }
  destruct (String.eqb_spec mode "image") as [->|H2].
  { intros H. apply andb_prop in H. destruct H as [Hf Hp].
    apply positive_trimmed_length in Hp.
    repeat split; [simpl; auto|].
    intros [[E _]|[[_ [E|E]]|[E _]]]; try discriminate; try contradiction.
    rewrite E in Hf. discriminate. }
  destruct (String.eqb_spec mode "floorplan") as [->|H3]; [|discriminate].
  intros H. apply andb_prop in H. destruct H as [Hf Hs].
  apply positive_length in Hs.
  repeat split; [simpl; auto|].
  intros [[E _]|[[E _]|[_ [E|E]]]]; try discriminate; try contradiction.
  rewrite E in Hf. discriminate.
Qed.

End EnabledButton.



(** X10. An edit submission made while no image is displayed (the array
    is [null] or empty) sends no request and changes nothing in the
    session; it only shows the notice ['No image to edit']. *)
Theorem edit_without_images :
  forall (P : Platform) (backendChat : Fetch ChatOutput) (r : StudioState)
         (R : Type) (editPrompt : string) (st : Store),
    generatedImages r = None \/ generatedImages r = Some [] ->
    @Studio.handleEditSubmit P backendChat r R editPrompt st
    = (Normal tt,
       with_toast st (Studio.destructive "No image to edit"
                        "Please generate an image first.")).
Proof.
  intros P backendChat r R editPrompt st H.
  rewrite handleEditSubmit_run. destruct H as [H|H]; rewrite H; reflexivity.
Qed.

Lemma edit_without_images_witness :
  @Studio.handleEditSubmit Scenario.localPlatform Scenario.chatReply
    Scenario.cozy unit "make the sofa blue" Scenario.storeCozy
  = (Normal tt,
     with_toast Scenario.storeCozy
       (Studio.destructive "No image to edit" "Please generate an image first.")).
Proof.
  apply (edit_without_images Scenario.localPlatform Scenario.chatReply
           Scenario.cozy unit "make the sofa blue" Scenario.storeCozy).
  left. reflexivity.
Defined.

(* ===================================================================== *)
(** * Properties of [generation-panel.tsx]                                *)
(* ===================================================================== *)

(** X11. When [canSubmit(mode)] holds (the [Generate] button is enabled)
    no transition is loading, the mode is one of the three tabs and no
    required field of the mode is missing, so a submission from that
    render never shows ['Missing fields']: it adds no notice, or the one
    notice ['Generation Failed'].  ([trim] maps the empty string to
    itself.) *)
Theorem enabled_generate_passes_validation :
  forall (trim : string -> string) (P : Platform)
         (backendDesign : Fetch GenerateDesignOutput) (r : StudioState)
         (R : Type) (isLoading : bool) (mode : string) (st : Store),
    trim "" = "" ->
    GenerationPanel.canSubmit trim isLoading r mode = true ->
    let st' := snd (@Studio.handleGenerationSubmit P backendDesign r R mode st) in
    isLoading = false /\
    ~ missing_fields r mode /\
    (toasts st' = toasts st \/
     exists message,
       toasts st'
       = (toasts st ++ [Studio.destructive "Generation Failed" message])%list).
Proof.
  intros trim P backendDesign r R isLoading mode st Htrim Hcan. cbv zeta.
  destruct (canSubmit_fields trim Htrim isLoading r mode Hcan) as [Hl [Hm Hf]].
  repeat split; try assumption.
  now apply complete_submission_toasts.
Qed.

Lemma enabled_generate_passes_validation_witness :
  ~ missing_fields Scenario.cozy "text".
Proof.
  destruct (enabled_generate_passes_validation Scenario.asciiTrim
              Scenario.localPlatform Scenario.twoImages Scenario.cozy unit
              false "text" Scenario.storeCozy eq_refl eq_refl) as [_ [H _]].
  exact H.
Defined.

Section PromptGenerator.
Variable trim : string -> string.
Variable P : Platform.
Variable backendPrompt : Fetch GeneratePromptOutput.

(** [handleGenerate], by its guards and the completion of its action
    call. *)
Lemma handleGenerate_run {R} (topic style : string) (st : Store) :
  @GenerationPanel.handleGenerate trim P backendPrompt R topic style st =
  if str_falsy (trim topic) then
    (Normal tt,
     with_toast st (Studio.destructive "Topic is empty"
                      "Please enter a topic to generate a prompt."))
  else if str_falsy style then
    (Normal tt,
     with_toast st (Studio.destructive "Style not defined"
                      "Please select a design style first."))
  else
    match prompt_call P backendPrompt topic style st with
    | (Normal (Success out), st1) => (Normal tt, store_with_prompt (gp_data out) st1)
    | (Normal (Failure error), st1) =>
      (Normal tt,
       with_toast st1 (Studio.destructive "Failed to generate prompt" error))
    | (Return _, st1) => (Normal tt, st1)
    | (Throw e, st1) => (Throw e, st1)
    end.
Proof.
  unfold GenerationPanel.handleGenerate, Studio.startTransition.
  destruct (str_falsy (trim topic)); [reflexivity|].
  destruct (str_falsy style); [reflexivity|].
  unfold call, bind.
  change (server_action P
            (generatePromptAction P backendPrompt
               [("topic", JsString topic); ("style", JsString style)]) st)
    with (prompt_call P backendPrompt topic style st).
  destruct (prompt_call P backendPrompt topic style st)
    as [[[out|error]|[]|e] st1]; reflexivity.
Qed.

(** The action call of the prompt generator, path by path. *)
Lemma prompt_call_run (topic style : string) (st : Store) :
  prompt_call P backendPrompt topic style st =
  match serverActionTransport P with
  | Some e => (Throw e, st)
  | None =>
    match JSON_stringify P [("topic", JsString topic); ("style", JsString style)] with
    | Rejected e => (Normal (Failure (caught_message e)), st)
    | Resolved text =>
      let request := json_request P "/generate-new-prompt" text in
      match backendPrompt request with
      | Rejected e =>
        (Normal (Failure (caught_message e)), with_request st request)
      | Resolved response =>
        (Normal (result_of_response response), with_request st request)
      end
    end
  end.
Proof.
  unfold prompt_call, generatePromptAction.
  rewrite server_action_run. unfold request_of. simpl.
  destruct (serverActionTransport P); [reflexivity|].
  destruct (JSON_stringify P _); reflexivity.
Qed.

Lemma prompt_call_frame (topic style : string) (st : Store) :
  let run := prompt_call P backendPrompt topic style st in
  studio (snd run) = studio st /\ toasts (snd run) = toasts st /\
  (forall e, fst run = Throw e -> snd run = st) /\
  (forall x, fst run <> Return x).
Proof.
  cbv zeta. rewrite prompt_call_run.
  destruct (serverActionTransport P);
    [repeat split; intros; discriminate|].
  destruct (JSON_stringify P _) as [text|];
    [|repeat split; intros; discriminate].
  cbv zeta.
  destruct (backendPrompt (json_request P "/generate-new-prompt" text));
    repeat split; intros; discriminate.
Qed.

End PromptGenerator.

(** X12. The prompt generator asks nothing of the backend when its topic
    is blank or when no style is selected: it shows ['Topic is empty'],
    respectively ['Style not defined'], and leaves the session and the
    network untouched. *)
Theorem prompt_generator_guards :
  forall (trim : string -> string) (P : Platform)
         (backendPrompt : Fetch GeneratePromptOutput) (R : Type)
         (topic style : string) (st : Store),
    (trim topic = "" ->
     @GenerationPanel.handleGenerate trim P backendPrompt R topic style st
     = (Normal tt,
        with_toast st (Studio.destructive "Topic is empty"
                         "Please enter a topic to generate a prompt."))) /\
    (trim topic <> "" -> style = "" ->
     @GenerationPanel.handleGenerate trim P backendPrompt R topic style st
     = (Normal tt,
        with_toast st (Studio.destructive "Style not defined"
                         "Please select a design style first."))).
Proof.
  intros trim P backendPrompt R topic style st. split.
  - intros H. rewrite handleGenerate_run, H. reflexivity.
  - intros Ht Hs. rewrite handleGenerate_run, (nonempty_not_falsy _ Ht), Hs.
    reflexivity.
Qed.

Lemma prompt_generator_guards_witness :
  @GenerationPanel.handleGenerate Scenario.asciiTrim Scenario.localPlatform
    Scenario2.promptReply unit "   " "Modern" Scenario.emptyStore
  = (Normal tt,
     with_toast Scenario.emptyStore
       (Studio.destructive "Topic is empty"
          "Please enter a topic to generate a prompt."))
  /\
  @GenerationPanel.handleGenerate Scenario.asciiTrim Scenario.localPlatform
    Scenario2.promptReply unit "modern kitchen" "" Scenario.emptyStore
  = (Normal tt,
     with_toast Scenario.emptyStore
       (Studio.destructive "Style not defined"
          "Please select a design style first.")).
Proof.
  split.
  - destruct (prompt_generator_guards Scenario.asciiTrim Scenario.localPlatform
                Scenario2.promptReply unit "   " "Modern" Scenario.emptyStore)
      as [H _].
    apply H. reflexivity.
  - destruct (prompt_generator_guards Scenario.asciiTrim Scenario.localPlatform
                Scenario2.promptReply unit "modern kitchen" ""
                Scenario.emptyStore) as [_ H].
    apply H; [discriminate|reflexivity].
Defined.

(** X13. With a topic and a style, the prompt generator calls the action
    on [{topic, style}].  A success puts the returned text in the prompt
    field and changes nothing else, with no notice; an error result
    leaves the session as it was and shows ['Failed to generate prompt']
    with the error as its description (also when it is empty); a call
    that rejects is not caught: the handler ends with that exception, and
    shows and changes nothing.  When the call goes through and the
    payload serialises, the one request is a JSON [POST] to
    [/generate-new-prompt]. *)
Theorem prompt_generator_outcomes :
  forall (trim : string -> string) (P : Platform)
         (backendPrompt : Fetch GeneratePromptOutput) (R : Type)
         (topic style : string) (st : Store),
    trim topic <> "" -> style <> "" ->
    let run := @GenerationPanel.handleGenerate trim P backendPrompt R topic style st in
    (forall out st1,
        prompt_call P backendPrompt topic style st = (Normal (Success out), st1) ->
        fst run = Normal tt /\
        studio (snd run) = with_prompt (gp_data out) (studio st) /\
        toasts (snd run) = toasts st) /\
    (forall error st1,
        prompt_call P backendPrompt topic style st = (Normal (Failure error), st1) ->
        fst run = Normal tt /\
        studio (snd run) = studio st /\
        toasts (snd run)
        = (toasts st ++ [Studio.destructive "Failed to generate prompt" error])%list) /\
    (forall e st1,
        prompt_call P backendPrompt topic style st = (Throw e, st1) ->
        run = (Throw e, st)) /\
    (forall text,
        serverActionTransport P = None ->
        JSON_stringify P [("topic", JsString topic); ("style", JsString style)]
        = Resolved text ->
        dispatched st (snd run)
          {| url := BACKEND_URL P ++ "/generate-new-prompt";
             method := "POST";
             headers := [("Content-Type", "application/json")];
             body := TextBody text |}).
Proof.
  intros trim P backendPrompt R topic style st Ht Hs. cbv zeta.
  rewrite handleGenerate_run, (nonempty_not_falsy _ Ht), (nonempty_not_falsy _ Hs).
  pose proof (prompt_call_frame P backendPrompt topic style st) as F.
  cbv zeta in F. destruct F as [Fs [Ft [Fe _]]].
  repeat apply conj.
  - intros out st1 H. rewrite H in *. simpl in *. rewrite Fs, Ft. auto.
  - intros error st1 H. rewrite H in *. simpl in *. rewrite Fs, Ft. auto.
  - intros e st1 H. rewrite H in *. simpl in *. now rewrite (Fe e eq_refl).
  - intros text Htr Htext. rewrite prompt_call_run, Htr, Htext. cbv zeta.
    destruct (backendPrompt (json_request P "/generate-new-prompt" text))
      as [response|]; [destruct (result_of_response response)|]; reflexivity.
Qed.

Lemma prompt_generator_outcomes_witness :
  let run := @GenerationPanel.handleGenerate Scenario.asciiTrim
               Scenario.localPlatform Scenario2.promptReply unit
               "modern kitchen" "Modern" Scenario.emptyStore in
  fst run = Normal tt /\
  studio (snd run) = with_prompt "A sunlit modern kitchen" initialStudio /\
  toasts (snd run) = [].
Proof.
  assert (Htopic : Scenario.asciiTrim "modern kitchen" <> "") by discriminate.
  assert (Hstyle : "Modern" <> "") by discriminate.
  destruct (prompt_generator_outcomes Scenario.asciiTrim Scenario.localPlatform
              Scenario2.promptReply unit "modern kitchen" "Modern"
              Scenario.emptyStore Htopic Hstyle) as [Hok _].
  apply (Hok {| gp_data := "A sunlit modern kitchen" |}
             (snd (prompt_call Scenario.localPlatform Scenario2.promptReply
                     "modern kitchen" "Modern" Scenario.emptyStore))).
  reflexivity.
Defined.

(* ===================================================================== *)
(** * Properties of the Studio page as a whole                            *)
(* ===================================================================== *)

Section PageInvariant.
Variable trim : string -> string.












Hypothesis trim_empty : trim "" = "".



End PageInvariant.







(* ===================================================================== *)
(** * Further properties of [design-chat.tsx]                             *)
(* ===================================================================== *)

Section ChatRounds.
Import DesignChat.
Variable trim : string -> string.

(** While a reply is pending, typing and submitting change neither the
    transcript, nor the pending transition, nor the notices. *)
Lemma inputs_while_pending (events : list Event) (s : ChatState) (c : Closure) :
  transition s = Some c ->
  forallb is_input events = true ->
  messages (run_events trim s events) = messages s /\
  transition (run_events trim s events) = Some c /\
  notices (run_events trim s events) = notices s.
Proof.
  unfold run_events. revert s.
  induction events as [|e events IH]; intros s Hc Hin; simpl.
  - auto.
  - simpl in Hin. apply andb_prop in Hin. destruct Hin as [He Hin].
    destruct e as [value| |o]; [| |discriminate]; simpl.
    + destruct (IH (handleChange value s) Hc Hin) as [H1 [H2 H3]]. auto.
    + assert (E : handleSubmit trim s = s).
      { unfold handleSubmit, isPending. rewrite Hc.
        now rewrite orb_true_r. }
      rewrite E. now apply IH.
Qed.

(** An accepted submission. *)
Lemma accepted_submit (s : ChatState) :
  trim (input s) <> "" -> transition s = None ->
  handleSubmit trim s =
  {| messages := (messages s ++ [{| role := user; content := input s |}])%list;
     input := "";
     transition :=
       Some {| c_messages := messages s;
               c_newMessages :=
                 (messages s ++ [{| role := user; content := input s |}])%list;
               c_query := input s |};
     notices := notices s |}.
Proof.
  intros Hin Hnone. unfold handleSubmit, isPending.
  rewrite (nonempty_not_falsy _ Hin), Hnone. reflexivity.
Qed.

Lemma replies_follow_snoc_user (l : list Message) (b : bool) (query : string) :
  replies_follow b l = true ->
  replies_follow b (l ++ [{| role := user; content := query |}]) = true.
Proof.
  revert b. induction l as [|m l IH]; intros b H; simpl in *.
  - reflexivity.
  - destruct (role m).
    + now apply IH.
    + apply andb_prop in H. destruct H as [Hb H].
      rewrite Hb. simpl. now apply IH.
Qed.

Lemma replies_follow_snoc_round (l : list Message) (b : bool) (query reply : string) :
  replies_follow b l = true ->
  replies_follow b
    ((l ++ [{| role := user; content := query |}])
       ++ [{| role := assistant; content := reply |}]) = true.
Proof.
  revert b. induction l as [|m l IH]; intros b H; simpl in *.
  - reflexivity.
  - destruct (role m).
    + now apply IH.
    + apply andb_prop in H. destruct H as [Hb H].
      rewrite Hb. simpl. now apply IH.
Qed.

Lemma step_chat_well_formed (s : ChatState) (e : Event) :
  chat_well_formed s -> chat_well_formed (step trim s e).
Proof.
  unfold chat_well_formed. intros [Hm Hc].
  destruct e as [value| |o]; simpl.
  - auto.
  - unfold handleSubmit.
    destruct (str_falsy (trim (input s)) || isPending s); [auto|].
    simpl. repeat split; auto. now apply replies_follow_snoc_user.
  - unfold resume.
    destruct (transition s) as [c|] eqn:E; [|rewrite E; auto].
    destruct Hc as [Hold [Hcur Hnew]].
    destruct o as [[data|error]|e]; simpl; split; auto.
    rewrite Hnew. now apply replies_follow_snoc_round.
Qed.

Lemma reachable_chat_well_formed (s : ChatState) :
  reachable trim s -> chat_well_formed s.
Proof.
  induction 1 as [|s e _ IH].
  - split; [reflexivity|exact I].
  - now apply step_chat_well_formed.
Qed.

End ChatRounds.

(** X17. A query that is accepted (not blank, nothing pending) and
    answered by an error leaves the transcript exactly as it was before
    the submission, whatever was typed or submitted while waiting; the
    error is shown in one notice titled ['Error'], nothing is pending any
    more, and the reply does not touch the input field (the query is not
    put back). *)
Theorem chat_error_round :
  forall (trim : string -> string) (s : DesignChat.ChatState)
         (events : list DesignChat.Event) (error : string),
    trim (DesignChat.input s) <> "" ->
    DesignChat.transition s = None ->
    forallb is_input events = true ->
    let waiting := run_events trim (DesignChat.step trim s DesignChat.Submit) events in
    let s' := DesignChat.step trim waiting
                (DesignChat.Settled (Resolved (Failure error))) in
    DesignChat.messages s' = DesignChat.messages s /\
    DesignChat.notices s'
    = (DesignChat.notices s ++
       [{| variant := "destructive"; title := "Error"; description := error |}])%list /\
    DesignChat.transition s' = None /\
    DesignChat.input s' = DesignChat.input waiting /\
    DesignChat.input (DesignChat.step trim s DesignChat.Submit) = "".
Proof.
  intros trim s events error Hin Hnone Hevents. cbv zeta. simpl DesignChat.step.
  rewrite (accepted_submit trim s Hin Hnone).
  match goal with
  | |- context [run_events trim ?s1 events] =>
    destruct (inputs_while_pending trim events s1 _ eq_refl Hevents)
      as [Hm [Ht Hn]];
    set (waiting := run_events trim s1 events) in *
  end.
  unfold DesignChat.resume. rewrite Ht. simpl. rewrite Hn. auto.
Qed.

Lemma chat_error_round_witness :
  let s' := DesignChat.step Scenario.asciiTrim
              (run_events Scenario.asciiTrim
                 (DesignChat.step Scenario.asciiTrim Scenario2.typedHi
                    DesignChat.Submit)
                 [DesignChat.Change "and"; DesignChat.Submit])
              (DesignChat.Settled (Resolved (Failure "model overloaded"))) in
  DesignChat.messages s' = [] /\
  DesignChat.input s' = "and".
Proof.
  assert (Hin : Scenario.asciiTrim (DesignChat.input Scenario2.typedHi) <> "")
    by discriminate.
  destruct (chat_error_round Scenario.asciiTrim Scenario2.typedHi
              [DesignChat.Change "and"; DesignChat.Submit] "model overloaded"
              Hin eq_refl eq_refl) as [Hm [_ [_ [Hi _]]]].
  cbv zeta. split; [exact Hm|exact Hi].
Defined.

(** X18. A query that is accepted and answered successfully extends the
    transcript by exactly two messages, the user's query as typed (not
    trimmed) and then the assistant's reply, whatever was typed or
    submitted while waiting; it shows no notice. *)
Theorem chat_success_round :
  forall (trim : string -> string) (s : DesignChat.ChatState)
         (events : list DesignChat.Event) (reply : ChatOutput),
    trim (DesignChat.input s) <> "" ->
    DesignChat.transition s = None ->
    forallb is_input events = true ->
    let waiting := run_events trim (DesignChat.step trim s DesignChat.Submit) events in
    let s' := DesignChat.step trim waiting
                (DesignChat.Settled (Resolved (Success reply))) in
    DesignChat.messages s'
    = (DesignChat.messages s ++
       [{| DesignChat.role := DesignChat.user;
           DesignChat.content := DesignChat.input s |};
        {| DesignChat.role := DesignChat.assistant;
           DesignChat.content := chat_data reply |}])%list /\
    DesignChat.notices s' = DesignChat.notices s /\
    DesignChat.transition s' = None.
Proof.
  intros trim s events reply Hin Hnone Hevents. cbv zeta. simpl DesignChat.step.
  rewrite (accepted_submit trim s Hin Hnone).
  match goal with
  | |- context [run_events trim ?s1 events] =>
    destruct (inputs_while_pending trim events s1 _ eq_refl Hevents)
      as [Hm [Ht Hn]];
    set (waiting := run_events trim s1 events) in *
  end.
  unfold DesignChat.resume. rewrite Ht. simpl. rewrite Hn.
  rewrite <- app_assoc. auto.
Qed.

Lemma chat_success_round_witness :
  DesignChat.messages
    (DesignChat.step Scenario.asciiTrim
       (run_events Scenario.asciiTrim
          (DesignChat.step Scenario.asciiTrim Scenario2.typedHi DesignChat.Submit)
          [])
       (DesignChat.Settled
          (Resolved (Success {| chat_data := "Try a navy velvet sofa." |}))))
  = [{| DesignChat.role := DesignChat.user; DesignChat.content := "hi" |};
     {| DesignChat.role := DesignChat.assistant;
        DesignChat.content := "Try a navy velvet sofa." |}].
Proof.
  assert (Hin : Scenario.asciiTrim (DesignChat.input Scenario2.typedHi) <> "")
    by discriminate.
  destruct (chat_success_round Scenario.asciiTrim Scenario2.typedHi []
              {| chat_data := "Try a navy velvet sofa." |}
              Hin eq_refl eq_refl) as [Hm _].
  exact Hm.
Defined.

(** X19. In every transcript the component can show, each assistant
    message comes directly after a user message: the transcript never
    starts with a reply and never has two replies in a row. *)
Theorem chat_replies_follow_queries :
  forall (trim : string -> string) (s : DesignChat.ChatState),
    DesignChat.reachable trim s ->
    replies_follow false (DesignChat.messages s) = true.
Proof.
  intros trim s Hreach.
  now destruct (reachable_chat_well_formed trim s Hreach).
Qed.

Lemma chat_replies_follow_queries_witness :
  replies_follow false (DesignChat.messages Scenario.asked) = true.
Proof.
  apply (chat_replies_follow_queries Scenario.asciiTrim Scenario.asked).
  unfold Scenario.asked.
  apply DesignChat.reachable_step. apply DesignChat.reachable_step.
  apply DesignChat.reachable_init.
Defined.

(* ===================================================================== *)
(** * Properties of [utils.ts]                                            *)
(* ===================================================================== *)

Section CleanJson.
Import Utils.

Lemma strip_prefix_app (p s : CodeUnits) : strip_prefix p (p ++ s)%list = Some s.
Proof.
  induction p as [|x p IH]; simpl.
  - reflexivity.
  - now rewrite N.eqb_refl.
Qed.

Lemma skip_white_space_idempotent (s : CodeUnits) :
  skip_white_space (skip_white_space s) = skip_white_space s.
Proof.
  induction s as [|c s IH]; simpl.
  - reflexivity.
  - destruct (is_white_space c) eqn:E; [assumption|].
    simpl. now rewrite E.
Qed.

Lemma skip_white_space_length (s : CodeUnits) :
  length (skip_white_space s) <= length s.
Proof.
  induction s as [|c s IH]; simpl.
  - lia.
  - destruct (is_white_space c); simpl; lia.
Qed.

(** A greedy [\s*] stops at the first character that is not white
    space. *)
Lemma skip_white_space_stop (s t : CodeUnits) (c : N) :
  is_white_space c = false ->
  skip_white_space (s ++ c :: t)%list = (skip_white_space s ++ c :: t)%list.
Proof.
  intros Hc. induction s as [|x s IH]; simpl.
  - now rewrite Hc.
  - destruct (is_white_space x); [assumption|reflexivity].
Qed.

(** What [skip_white_space] drops is a prefix. *)
Lemma skip_white_space_suffix (s : CodeUnits) :
  exists dropped, s = (dropped ++ skip_white_space s)%list.
Proof.
  induction s as [|c s [dropped IH]]; simpl.
  - now exists [].
  - destruct (is_white_space c).
    + exists (c :: dropped). simpl. now rewrite <- IH.
    + now exists [].
Qed.

Lemma skipped_head (c : N) (s : CodeUnits) :
  skip_white_space (c :: s) = c :: s -> is_white_space c = false.
Proof.
  simpl. destruct (is_white_space c); [|reflexivity].
  intros H. pose proof (skip_white_space_length s) as L.
  rewrite H in L. simpl in L. lia.
Qed.

Lemma head_not_skipped (c : N) (s : CodeUnits) :
  is_white_space c = false -> skip_white_space (c :: s) = c :: s.
Proof. intros H. simpl. now rewrite H. Qed.

Lemma trim_trimmed (s : CodeUnits) : trimmed (trim s).
Proof.
  unfold trimmed, trim. split.
  - remember (skip_white_space s) as u eqn:Hu.
    assert (Hfix : skip_white_space u = u)
      by (subst u; apply skip_white_space_idempotent).
    destruct (skip_white_space_suffix (rev u)) as [dropped Hd].
    remember (skip_white_space (rev u)) as v eqn:Hv.
    assert (E : u = (rev v ++ rev dropped)%list).
    { rewrite <- (rev_involutive u), Hd. apply rev_app_distr. }
    destruct (rev v) as [|x y] eqn:Hr; [reflexivity|].
    apply head_not_skipped.
    rewrite E in Hfix. simpl in Hfix. now apply skipped_head in Hfix.
  - rewrite rev_involutive. apply skip_white_space_idempotent.
Qed.

Lemma trim_of_trimmed (s : CodeUnits) : trimmed s -> trim s = s.
Proof.
  unfold trimmed, trim. intros [H1 H2]. rewrite H1, H2. apply rev_involutive.
Qed.

Lemma replace_closing_fence_app (s : CodeUnits) :
  replace_closing_fence (s ++ closing_fence)%list = s.
Proof.
  unfold replace_closing_fence. rewrite rev_app_distr.
  change (rev closing_fence) with closing_fence.
  rewrite strip_prefix_app. apply rev_involutive.
Qed.

End CleanJson.

(** X20. [cleanJsonString] unwraps a fenced block: for every [body], the
    string made of [```json], [body] and [```] is cleaned to [body]
    trimmed, whatever white space surrounds [body] inside the fence. *)
Theorem clean_fenced_block :
  forall body : Utils.CodeUnits,
    Utils.cleanJsonString (Utils.opening_fence ++ body ++ Utils.closing_fence)%list
    = Utils.trim body.
Proof.
  intros body. unfold Utils.cleanJsonString, Utils.replace_opening_fence.
  rewrite strip_prefix_app.
  unfold Utils.closing_fence at 1.
  rewrite (skip_white_space_stop body [Utils.backtick; Utils.backtick]
             Utils.backtick eq_refl).
  change (Utils.backtick :: [Utils.backtick; Utils.backtick])
    with Utils.closing_fence.
  rewrite replace_closing_fence_app.
  unfold Utils.trim. now rewrite skip_white_space_idempotent.
Qed.

(** X21. Whatever its input, the result of [cleanJsonString] has no white
    space at its start or at its end. *)
Theorem clean_result_is_trimmed :
  forall s : Utils.CodeUnits, trimmed (Utils.cleanJsonString s).
Proof.
  intros s. unfold Utils.cleanJsonString. apply trim_trimmed.
Qed.

(** X22. A string that neither starts with [```json] nor ends with [```]
    is only trimmed; if it has no white space at either end it comes back
    unchanged. *)
Theorem clean_unfenced :
  forall s : Utils.CodeUnits,
    Utils.strip_prefix Utils.opening_fence s = None ->
    Utils.strip_prefix Utils.closing_fence (rev s) = None ->
    Utils.cleanJsonString s = Utils.trim s /\
    (trimmed s -> Utils.cleanJsonString s = s).
Proof.
  intros s Hopen Hclose.
  assert (E : Utils.cleanJsonString s = Utils.trim s).
  { unfold Utils.cleanJsonString, Utils.replace_opening_fence,
      Utils.replace_closing_fence.
    now rewrite Hopen, Hclose. }
  split; [assumption|].
  intros Ht. rewrite E. now apply trim_of_trimmed.
Qed.

Lemma clean_unfenced_witness :
  Utils.cleanJsonString (Scenario2.lineFeed :: Scenario2.jsonBody ++ [Scenario2.lineFeed])%list
  = Utils.trim (Scenario2.lineFeed :: Scenario2.jsonBody ++ [Scenario2.lineFeed])%list
  /\
  Utils.cleanJsonString Scenario2.jsonBody = Scenario2.jsonBody.
Proof.
  split.
  - destruct (clean_unfenced
                (Scenario2.lineFeed :: Scenario2.jsonBody ++ [Scenario2.lineFeed])%list
                eq_refl eq_refl) as [H _].
    exact H.
  - destruct (clean_unfenced Scenario2.jsonBody eq_refl eq_refl) as [_ H].
    apply H. split; reflexivity.
Defined.

(* ===================================================================== *)
(** * The handlers end to end                                             *)
(* ===================================================================== *)

Section EndToEnd.
Variable P : Platform.
Variable backendDesign : Fetch GenerateDesignOutput.
Variable r : StudioState.

(** The mode dispatch either is the action call on some payload, or
    sends nothing. *)
Lemma dispatch_call_or_silent (mode : string) (st : Store) :
  (exists input,
      Studio.generation_dispatch P backendDesign r mode st
      = design_call P backendDesign input st) \/
  network (snd (Studio.generation_dispatch P backendDesign r mode st)) = network st.
Proof.
  unfold Studio.generation_dispatch.
  destruct (String.eqb mode "text").
  { destruct (str_falsy (prompt r) || str_falsy (style r)); [now right|].
    left. eexists. reflexivity. }
  destruct (String.eqb mode "image").
  { destruct (Studio.no_file (sourceImageFile r) || str_falsy (prompt r));
      [now right|].
    unfold Studio.fileToDataUri.
    destruct (sourceImageFile r) as [file|]; [|now right].
    unfold bind at 1. unfold await.
    destruct (readAsDataURL P file) as [uri|e]; [|now right].
    left. eexists. reflexivity. }
  destruct (String.eqb mode "floorplan"); [|now right].
  destruct (Studio.no_file (floorPlanFile r) || str_falsy (style r));
    [now right|].
  unfold Studio.fileToDataUri.
  destruct (floorPlanFile r) as [file|]; [|now right].
  unfold bind at 1. unfold await.
  destruct (readAsDataURL P file) as [uri|e]; [|now right].
  left. eexists. reflexivity.
Qed.

End EndToEnd.

(** X23. A generation submission whose request is answered with an error
    status and a readable body shows that status and body to the user:
    the one notice added is ['Generation Failed'] with the description
    [Backend request failed with status <status>: <body>], and no image
    is displayed afterwards. *)
Theorem generation_http_error_notice :
  forall (P : Platform) (backendDesign : Fetch GenerateDesignOutput)
         (r : StudioState) (R : Type) (mode : string) (st : Store)
         (request : Request) (response : Response GenerateDesignOutput)
         (errorText : string),
    let st' := snd (@Studio.handleGenerationSubmit P backendDesign r R mode st) in
    dispatched st st' request ->
    backendDesign request = Resolved response ->
    ok response = false ->
    text response = Resolved errorText ->
    toasts st'
    = (toasts st ++
       [Studio.destructive "Generation Failed"
          ("Backend request failed with status "
           ++ number_to_string (status response) ++ ": " ++ errorText)])%list /\
    generatedImages (studio st') = None.
Proof.
  intros P backendDesign r R mode st request response errorText. cbv zeta.
  intros Hsent Hfetch Hok Htext.
  assert (Hnet := handleGenerationSubmit_network P backendDesign r (R := R) mode st).
  rewrite handleGenerationSubmit_run.
  rewrite handleGenerationSubmit_run in Hsent.
  destruct (dispatch_call_or_silent P backendDesign r mode (cleared st))
    as [[input Hcall]|Hsilent].
  - rewrite Hcall in *. rewrite design_call_run in *.
    destruct (serverActionTransport P) as [e|].
    { exfalso. revert Hsent. now apply nothing_then_dispatched. }
    cbv zeta in *.
    assert (E : request = form_request P "/generate-design" input).
    { eapply dispatched_unique; [exact Hsent|].
      destruct (backendDesign (form_request P "/generate-design" input))
        as [response'|]; [destruct (result_of_response response')|];
        reflexivity. }
    subst request. rewrite Hfetch in *.
    unfold result_of_response in *. rewrite Hok, Htext in *.
    split; reflexivity.
  - exfalso. revert Hsent.
    destruct (Studio.generation_dispatch P backendDesign r mode (cleared st))
      as [[[out|error]|[]|e] st1]; simpl in *;
      now apply nothing_then_dispatched.
Qed.

Lemma generation_http_error_notice_witness :
  toasts (snd (@Studio.handleGenerationSubmit Scenario.localPlatform
                 Scenario.overloaded Scenario.cozy unit "text" Scenario.storeCozy))
  = [Studio.destructive "Generation Failed"
       "Backend request failed with status 500: model overloaded"].
Proof.
  destruct (generation_http_error_notice Scenario.localPlatform
              Scenario.overloaded Scenario.cozy unit "text" Scenario.storeCozy
              (design_request Scenario.localPlatform
                 [("prompt", JsString "Cozy Scandinavian living room");
                  ("style", JsString "Scandinavian"); ("mode", JsString "text")])
              {| status := 500; text := Resolved "model overloaded";
                 json := Rejected
                           (JsError "Unexpected token m in JSON at position 0") |}
              "model overloaded" eq_refl eq_refl eq_refl eq_refl) as [H _].
  exact H.
Defined.

Lemma handleEditSubmit_normal (P : Platform) (backendChat : Fetch ChatOutput)
      (r : StudioState) {R} (editPrompt : string) (st : Store) :
  fst (@Studio.handleEditSubmit P backendChat r R editPrompt st) = Normal tt.
Proof.
  rewrite handleEditSubmit_run.
  destruct (Studio.no_images (generatedImages r)); [reflexivity|].
  destruct (edit_call P backendChat editPrompt st)
    as [[[out|error]|[]|e] st1]; reflexivity.
Qed.

(** X24. The three handlers of the Studio never let an exception escape:
    whatever the platform and the backend do, [handleGenerationSubmit],
    [handleEditSubmit] and [handleClear] complete normally. *)
Theorem studio_handlers_complete_normally :
  forall (P : Platform) (backendDesign : Fetch GenerateDesignOutput)
         (backendChat : Fetch ChatOutput) (r : StudioState) (R : Type)
         (mode editPrompt : string) (st : Store),
    fst (@Studio.handleGenerationSubmit P backendDesign r R mode st) = Normal tt /\
    fst (@Studio.handleEditSubmit P backendChat r R editPrompt st) = Normal tt /\
    fst (@Studio.handleClear R st) = Normal tt.
Proof.
  intros P backendDesign backendChat r R mode editPrompt st. repeat split.
  - rewrite handleGenerationSubmit_run.
    destruct (Studio.generation_dispatch P backendDesign r mode (cleared st))
      as [[[out|error]|[]|e] st1]; reflexivity.
  - apply handleEditSubmit_normal.
Qed.

(** X25. The editor's submit handler does nothing when its edit prompt is
    blank.  Otherwise it hands the prompt as typed (not trimmed) to
    [onEdit], here the Studio's [handleEditSubmit], and empties its
    field: the store is the one [handleEditSubmit] leaves. *)
Theorem editor_submit_chain :
  forall (trim : string -> string) (P : Platform) (backendChat : Fetch ChatOutput)
         (r : StudioState) (editPrompt : string) (st : Store),
    let run := @ImageEditor.handleEditSubmit unit trim
                 (@Studio.handleEditSubmit P backendChat r unit) editPrompt st in
    (trim editPrompt = "" -> run = (Normal editPrompt, st)) /\
    (trim editPrompt <> "" ->
     run = (Normal "",
            snd (@Studio.handleEditSubmit P backendChat r unit editPrompt st))).
Proof.
  intros trim P backendChat r editPrompt st. cbv zeta.
  unfold ImageEditor.handleEditSubmit. split.
  - intros H. rewrite H. reflexivity.
  - intros H. rewrite (nonempty_not_falsy _ H). simpl.
    pose proof (handleEditSubmit_normal P backendChat r (R := unit) editPrompt st)
      as Hn.
    unfold call at 1. unfold bind. unfold call at 1.
    destruct (Studio.handleEditSubmit P backendChat r editPrompt st)
      as [c st1]. simpl in Hn. subst c. reflexivity.
Qed.

Lemma editor_submit_chain_witness :
  @ImageEditor.handleEditSubmit unit Scenario.asciiTrim
    (@Studio.handleEditSubmit Scenario.localPlatform Scenario.chatReply
       Scenario.showingTwo unit) "   " Scenario.storeShowingTwo
  = (Normal "   ", Scenario.storeShowingTwo)
  /\
  fst (@ImageEditor.handleEditSubmit unit Scenario.asciiTrim
         (@Studio.handleEditSubmit Scenario.localPlatform Scenario.chatReply
            Scenario.showingTwo unit) " make the sofa blue "
         Scenario.storeShowingTwo)
  = Normal "".
Proof.
  split.
  - destruct (editor_submit_chain Scenario.asciiTrim Scenario.localPlatform
                Scenario.chatReply Scenario.showingTwo "   "
                Scenario.storeShowingTwo) as [H _].
    apply H. reflexivity.
  - destruct (editor_submit_chain Scenario.asciiTrim Scenario.localPlatform
                Scenario.chatReply Scenario.showingTwo " make the sofa blue "
                Scenario.storeShowingTwo) as [_ H].
    rewrite H; [reflexivity|discriminate].
Defined.
